(** * Hillshade: a shallow embedding of [xrspatial/hillshade.py]

    The module computes, for every cell of a 2D elevation grid, an
    illumination value from the local gradients and two lighting angles.
    It has a host kernel ([_run_numpy]), a device kernel
    ([_gpu_calc_numba], launched by [_run_cupy]), a tiled executor
    ([_run_dask_numpy], dask's [map_overlap] around the host kernel) and a
    dispatcher ([hillshade]).

    The kernels are written once, over an interface [FloatOps] of
    floating-point operations, the way the Python code is agnostic of the
    dtype it is run at.  Structural properties (tiling, borders, stencils,
    shapes, failures) are proved for every implementation of the interface.
    They hold of the IEEE arithmetic the code runs on as of any other.

    [Rext] is one implementation: real numbers with the IEEE special
    values not-a-number and the two infinities, [np.pi] the binary64
    number it is, and the store into a [float32] buffer rounding to single
    precision; the other operations are not rounded.  It serves for what
    does not hang on that rounding: the propagation of not-a-number, and
    inputs on which the code can be seen to depart from a statement. *)

From Stdlib Require Import Reals Lra Lia List Arith Bool QArith Qreals String.
From Stdlib Require Import Permutation.
Import ListNotations.

Set Implicit Arguments.

Local Open Scope nat_scope.

(** ** Exceptions and outcomes *)

Inductive exn : Type :=
| ValueError (msg : string)
| IndexError (msg : string)
| TypeError (msg : string)
| NotImplementedError (msg : string).

Inductive outcome (A : Type) : Type :=
| Ok (a : A)
| Raise (e : exn).

Arguments Ok {A} a.
Arguments Raise {A} e.

Definition bind {A B : Type} (m : outcome A) (k : A -> outcome B) : outcome B :=
  match m with
  | Ok a => k a
  | Raise e => Raise e
  end.

Notation "x <- m ;; k" := (bind m (fun x => k))
  (at level 61, m at next level, right associativity).
Notation "' p <- m ;; k" := (bind m (fun x => let p := x in k))
  (at level 61, p pattern, m at next level, right associativity).

Fixpoint mapM {A B : Type} (f : A -> outcome B) (l : list A) : outcome (list B) :=
  match l with
  | [] => Ok []
  | a :: l' => b <- f a ;; bs <- mapM f l' ;; Ok (b :: bs)
  end.

(** ** Floating-point operations

    What the kernels use of a floating-point type.  [of_Q] reads a numeric
    literal ([360.0], [180.], [2], [1.57079632679], [0.5]) or an integer
    argument; [to_f32] is the rounding of a store into a [float32] buffer. *)

Class FloatOps (F : Type) : Type := {
  nan : F;
  of_Q : Q -> F;
  fpi : F;
  fadd : F -> F -> F;
  fsub : F -> F -> F;
  fmul : F -> F -> F;
  fdiv : F -> F -> F;
  fneg : F -> F;
  fsqrt : F -> F;
  fsin : F -> F;
  fcos : F -> F;
  fatan : F -> F;
  fatan2 : F -> F -> F;
  to_f32 : F -> F
}.

(** ** Real arithmetic with the IEEE special values *)

Inductive Rext : Type :=
| RNaN
| RInf (negative : bool)
| RFin (r : R).

Module RextOps.
Local Open Scope R_scope.

Definition Rltb (a b : R) : bool := if Rlt_dec a b then true else false.
Definition Reqb (a b : R) : bool := if Req_dec_T a b then true else false.

Definition add (a b : Rext) : Rext :=
  match a, b with
  | RNaN, _ | _, RNaN => RNaN
  | RInf s, RInf s' => if Bool.eqb s s' then RInf s else RNaN
  | RInf s, RFin _ => RInf s
  | RFin _, RInf s => RInf s
  | RFin x, RFin y => RFin (x + y)
  end.

Definition neg (a : Rext) : Rext :=
  match a with
  | RNaN => RNaN
  | RInf s => RInf (negb s)
  | RFin x => RFin (- x)
  end.

Definition sub (a b : Rext) : Rext :=
  match a, b with
  | RNaN, _ | _, RNaN => RNaN
  | RInf s, RInf s' => if Bool.eqb s s' then RNaN else RInf s
  | RInf s, RFin _ => RInf s
  | RFin _, RInf s => RInf (negb s)
  | RFin x, RFin y => RFin (x - y)
  end.

Definition mul (a b : Rext) : Rext :=
  match a, b with
  | RNaN, _ | _, RNaN => RNaN
  | RInf s, RInf s' => RInf (xorb s s')
  | RInf s, RFin y => if Reqb y 0 then RNaN else RInf (xorb s (Rltb y 0))
  | RFin x, RInf s => if Reqb x 0 then RNaN else RInf (xorb (Rltb x 0) s)
  | RFin x, RFin y => RFin (x * y)
  end.

Definition div (a b : Rext) : Rext :=
  match a, b with
  | RNaN, _ | _, RNaN => RNaN
  | RInf _, RInf _ => RNaN
  | RInf s, RFin y => RInf (xorb s (Rltb y 0))
  | RFin _, RInf _ => RFin 0
  | RFin x, RFin y =>
      if Reqb y 0
      then (if Reqb x 0 then RNaN else RInf (Rltb x 0))
      else RFin (x / y)
  end.

Definition sqrt (a : Rext) : Rext :=
  match a with
  | RNaN => RNaN
  | RInf s => if s then RNaN else RInf false
  | RFin x => if Rltb x 0 then RNaN else RFin (R_sqrt.sqrt x)
  end.

Definition sin (a : Rext) : Rext :=
  match a with
  | RFin x => RFin (Rtrigo_def.sin x)
  | _ => RNaN
  end.

Definition cos (a : Rext) : Rext :=
  match a with
  | RFin x => RFin (Rtrigo_def.cos x)
  | _ => RNaN
  end.

Definition atan (a : Rext) : Rext :=
  match a with
  | RNaN => RNaN
  | RInf s => if s then RFin (- (PI / 2)) else RFin (PI / 2)
  | RFin x => RFin (Ratan.atan x)
  end.

(** The angle of the point with ordinate [y] and abscissa [x], in
    (-PI, PI]. *)
Definition Ratan2 (y x : R) : R :=
  if Rltb 0 x then Ratan.atan (y / x)
  else if Rltb x 0 then
    (if Rltb y 0 then Ratan.atan (y / x) - PI else Ratan.atan (y / x) + PI)
  else if Rltb 0 y then PI / 2
  else if Rltb y 0 then - (PI / 2)
  else 0.

Definition atan2 (y x : Rext) : Rext :=
  match y, x with
  | RNaN, _ | _, RNaN => RNaN
  | RFin y, RFin x => RFin (Ratan2 y x)
  | RFin y, RInf false => RFin 0
  | RFin y, RInf true => if Rltb y 0 then RFin (- PI) else RFin PI
  | RInf s, RFin _ => if s then RFin (- (PI / 2)) else RFin (PI / 2)
  | RInf s, RInf false => if s then RFin (- (PI / 4)) else RFin (PI / 4)
  | RInf s, RInf true => if s then RFin (- (3 * PI / 4)) else RFin (3 * PI / 4)
  end.

(** [np.pi]: the binary64 number nearest to PI,
    3.141592653589793115997963468544185161590576171875. *)
Definition np_pi : Q := 884279719003555 # 281474976710656.

(** The binade of a number other than zero: the integer part of the
    binary logarithm of its absolute value. *)
Definition binade (r : R) : Z := (up (ln (Rabs r) / ln 2) - 1)%Z.

(** The nearest integer, the even one of the two at a tie. *)
Definition nearest_even (t : R) : Z :=
  let f := (up t - 1)%Z in
  if Rltb (t - IZR f) (/ 2) then f
  else if Rltb (/ 2) (t - IZR f) then (f + 1)%Z
  else if Z.even f then f else (f + 1)%Z.

(** Rounding to binary32: 24 significant bits, exponents from -126,
    infinity from 2^128 on. *)
Definition round_f32 (r : R) : Rext :=
  if Reqb r 0 then RFin 0
  else
    let e := Z.max (binade r) (-126) in
    let ulp := powerRZ 2 (e - 23) in
    let v := IZR (nearest_even (r / ulp)) * ulp in
    if Rltb (Rabs v) (powerRZ 2 128) then RFin v else RInf (Rltb r 0).

Definition to_f32 (a : Rext) : Rext :=
  match a with
  | RFin r => round_f32 r
  | other => other
  end.

End RextOps.

#[export] Instance Rext_FloatOps : FloatOps Rext := {|
  nan := RNaN;
  of_Q := fun q => RFin (Q2R q);
  fpi := RFin (Q2R RextOps.np_pi);
  fadd := RextOps.add;
  fsub := RextOps.sub;
  fmul := RextOps.mul;
  fdiv := RextOps.div;
  fneg := RextOps.neg;
  fsqrt := RextOps.sqrt;
  fsin := RextOps.sin;
  fcos := RextOps.cos;
  fatan := RextOps.atan;
  fatan2 := RextOps.atan2;
  to_f32 := RextOps.to_f32
|}.

(** ** Two-dimensional arrays

    An array is its shape and its cells.  Every read made by the code
    below is inside the shape (the guards of [gradient] and of the device
    kernel see to it), so the value of [item] outside of it is never
    observed. *)

Record ndarray (F : Type) : Type := mk_ndarray {
  nrows : nat;
  ncols : nat;
  item : nat -> nat -> F
}.

Arguments mk_ndarray {F} nrows ncols item.

Section Numpy.
Context {F : Type} `{FloatOps F}.

Definition shape (a : ndarray F) : nat * nat := (nrows a, ncols a).

(** Elementwise operations: on one array, on two arrays, and between a
    scalar and an array. *)
Definition amap (f : F -> F) (a : ndarray F) : ndarray F :=
  mk_ndarray (nrows a) (ncols a) (fun i j => f (item a i j)).

Definition amap2 (f : F -> F -> F) (a b : ndarray F) : ndarray F :=
  mk_ndarray (nrows a) (ncols a) (fun i j => f (item a i j) (item b i j)).

Definition scalar_l (f : F -> F -> F) (s : F) (a : ndarray F) : ndarray F :=
  amap (fun v => f s v) a.

Definition scalar_r (f : F -> F -> F) (a : ndarray F) (s : F) : ndarray F :=
  amap (fun v => f v s) a.

(** [a[rows, :] = v] and [a[:, cols] = v] *)
Definition setitem_rows (a : ndarray F) (rows : list nat) (v : F) : ndarray F :=
  mk_ndarray (nrows a) (ncols a)
    (fun i j => if existsb (Nat.eqb i) rows then v else item a i j).

Definition setitem_cols (a : ndarray F) (cols : list nat) (v : F) : ndarray F :=
  mk_ndarray (nrows a) (ncols a)
    (fun i j => if existsb (Nat.eqb j) cols then v else item a i j).

(** [a[i, j] = v] *)
Definition setitem (a : ndarray F) (i j : nat) (v : F) : ndarray F :=
  mk_ndarray (nrows a) (ncols a)
    (fun i' j' => if (i' =? i) && (j' =? j) then v else item a i' j').

(** [np.gradient] along one axis, unit spacing, [edge_order=1]: central
    differences inside, one-sided differences at the two ends. *)
Definition gradient_axis0 (f : ndarray F) : ndarray F :=
  let n := nrows f in
  mk_ndarray (nrows f) (ncols f) (fun i j =>
    if i =? 0 then fdiv (fsub (item f 1 j) (item f 0 j)) (of_Q 1)
    else if i =? n - 1 then
      fdiv (fsub (item f (n - 1) j) (item f (n - 2) j)) (of_Q 1)
    else fdiv (fsub (item f (i + 1) j) (item f (i - 1) j)) (of_Q 2)).

Definition gradient_axis1 (f : ndarray F) : ndarray F :=
  let n := ncols f in
  mk_ndarray (nrows f) (ncols f) (fun i j =>
    if j =? 0 then fdiv (fsub (item f i 1) (item f i 0)) (of_Q 1)
    else if j =? n - 1 then
      fdiv (fsub (item f i (n - 1)) (item f i (n - 2))) (of_Q 1)
    else fdiv (fsub (item f i (j + 1)) (item f i (j - 1))) (of_Q 2)).

(** [np.gradient(f)] of a 2D array: it refuses an axis of fewer than
    [edge_order + 1 = 2] elements. *)
Definition gradient (f : ndarray F) : outcome (ndarray F * ndarray F) :=
  if (nrows f <? 2) || (ncols f <? 2)
  then Raise (ValueError
    "Shape of array too small to calculate a numerical gradient, at least (edge_order + 1) elements are required.")
  else Ok (gradient_axis0 f, gradient_axis1 f).

End Numpy.

(** ** The host kernel *)

Section HostKernel.
Context {F : Type} `{FloatOps F}.

Definition _run_numpy (data : ndarray F) (azimuth angle_altitude : F)
  : outcome (ndarray F) :=
  let azimuth := fsub (of_Q 360) azimuth in
  '(x, y) <- gradient data ;;
  let slope :=
    scalar_l fsub (fdiv fpi (of_Q 2))
      (amap fatan (amap fsqrt (amap2 fadd (amap2 fmul x x) (amap2 fmul y y)))) in
  let aspect := amap2 fatan2 (amap fneg x) y in
  let azimuthrad := fdiv (fmul azimuth fpi) (of_Q 180) in
  let altituderad := fdiv (fmul angle_altitude fpi) (of_Q 180) in
  let shaded :=
    amap2 fadd
      (scalar_l fmul (fsin altituderad) (amap fsin slope))
      (amap2 fmul
         (scalar_l fmul (fcos altituderad) (amap fcos slope))
         (amap fcos
            (scalar_l fsub (fsub azimuthrad (fdiv fpi (of_Q 2))) aspect))) in
  let result := scalar_r fdiv (scalar_r fadd shaded (of_Q 1)) (of_Q 2) in
  let result := setitem_rows result [0; nrows result - 1] nan in
  let result := setitem_cols result [0; ncols result - 1] nan in
  Ok result.

End HostKernel.

(** ** The device kernel *)

Section DeviceKernel.
Context {F : Type} `{FloatOps F}.

(** The arithmetic of one thread of [_gpu_calc_numba] on its gradients
    [x] and [y] (lines 70 to 82), with the constant that the kernel writes
    [1.57079632679] as a parameter. *)
Definition gpu_illum (half_pi : F) (x y : F)
  (sin_altituderad cos_altituderad azimuthrad : F) : F :=
  let len := fsqrt (fadd (fmul x x) (fmul y y)) in
  let slope := fsub half_pi (fatan len) in
  let aspect := fsub (fsub azimuthrad half_pi) (fatan2 (fneg x) y) in
  let sin_slope := fsin slope in
  let sin_part := fmul sin_altituderad sin_slope in
  let cos_aspect := fcos aspect in
  let cos_slope := fcos slope in
  let cos_part := fmul (fmul cos_altituderad cos_slope) cos_aspect in
  let res := fadd sin_part cos_part in
  fmul (fadd res (of_Q 1)) (of_Q 0.5).

(** The thread whose [cuda.grid(2)] is [(i, j)]: it writes its cell of
    [output] when the cell is strictly inside the grid, and nothing
    otherwise. *)
Definition _gpu_calc_numba (data output : ndarray F)
  (sin_altituderad cos_altituderad azimuthrad : F) (i j : nat) : ndarray F :=
  if (0 <? i) && (i <? nrows data - 1) && (0 <? j) && (j <? ncols data - 1)
  then
    let x := fdiv (fsub (item data (i + 1) j) (item data (i - 1) j)) (of_Q 2) in
    let y := fdiv (fsub (item data i (j + 1)) (item data i (j - 1))) (of_Q 2) in
    setitem output i j
      (to_f32 (gpu_illum (of_Q 1.57079632679) x y
                 sin_altituderad cos_altituderad azimuthrad))
  else output.

(** Modelled from the spec: [cuda_args] of [xrspatial/utils.py], which is
    not among the sources.  "Logically one worker per output cell,
    addressed by a 2D coordinate mapped from a 2D launch grid": square
    blocks of [tpb] by [tpb] threads ([tpb] depends on the device), and as
    many blocks along each axis as it takes to cover the axis. *)
Definition cuda_args (tpb : nat) (shp : nat * nat)
  : (nat * nat) * (nat * nat) :=
  (((fst shp + tpb - 1) / tpb, (snd shp + tpb - 1) / tpb), (tpb, tpb)).

(** The threads of a launch [kernel[griddim, blockdim]], by their
    [cuda.grid(2)] coordinates. *)
Definition cuda_grid (griddim blockdim : nat * nat) : list (nat * nat) :=
  list_prod (seq 0 (fst griddim * fst blockdim))
            (seq 0 (snd griddim * snd blockdim)).

(** A launch runs the kernel once per thread on the shared output
    buffer. *)
Definition launch (kernel : ndarray F -> nat -> nat -> ndarray F)
  (griddim blockdim : nat * nat) (output : ndarray F) : ndarray F :=
  fold_left (fun out ij => kernel out (fst ij) (snd ij))
            (cuda_grid griddim blockdim) output.

(** [tpb] is the block side of the device and [empty] what
    [cupy.empty] finds in the memory it allocates. *)
Definition _run_cupy (tpb : nat) (empty : nat -> nat -> F)
  (d_data : ndarray F) (azimuth angle_altitude : F) : outcome (ndarray F) :=
  let altituderad := fdiv (fmul angle_altitude fpi) (of_Q 180) in
  let sin_altituderad := fsin altituderad in
  let cos_altituderad := fcos altituderad in
  let azimuthrad := fdiv (fmul (fsub (of_Q 360) azimuth) fpi) (of_Q 180) in
  let output := mk_ndarray (nrows d_data) (ncols d_data) empty in
  let '(griddim, blockdim) := cuda_args tpb (shape d_data) in
  let output :=
    launch (fun out i j =>
              _gpu_calc_numba d_data out
                sin_altituderad cos_altituderad azimuthrad i j)
           griddim blockdim output in
  if (nrows output =? 0) || (ncols output =? 0)
  then Raise (IndexError "index 0 is out of bounds")
  else
    let output := setitem_rows output [0] nan in
    let output := setitem_rows output [nrows output - 1] nan in
    let output := setitem_cols output [0] nan in
    let output := setitem_cols output [ncols output - 1] nan in
    Ok output.

End DeviceKernel.

(** ** The tiled executor *)

Record dask_array (F : Type) : Type := mk_dask_array {
  chunks0 : list nat;          (* heights of the blocks, top to bottom *)
  chunks1 : list nat;          (* widths of the blocks, left to right *)
  whole : ndarray F;           (* the array the blocks tile *)
  cupy_backed : bool           (* its meta is a cupy array *)
}.

Arguments mk_dask_array {F} chunks0 chunks1 whole cupy_backed.

Section TiledExecutor.
Context {F : Type} `{FloatOps F}.

(** First index and length of each chunk of an axis. *)
Fixpoint chunk_spans (start : nat) (chunks : list nat) : list (nat * nat) :=
  match chunks with
  | [] => []
  | c :: cs => (start, c) :: chunk_spans (start + c) cs
  end.

(** [boundary=np.nan]: one ring of not-a-number around the whole array. *)
Definition pad_nan (a : ndarray F) : ndarray F :=
  mk_ndarray (nrows a + 2) (ncols a + 2) (fun i j =>
    if (1 <=? i) && (i <=? nrows a) && (1 <=? j) && (j <=? ncols a)
    then item a (i - 1) (j - 1)
    else nan).

(** [depth=(1, 1)]: the block of the given row and column spans, with one
    more cell on each of its four sides, read in the padded array. *)
Definition overlap_block (padded : ndarray F) (rs cs : nat * nat) : ndarray F :=
  mk_ndarray (snd rs + 2) (snd cs + 2)
    (fun i j => item padded (fst rs + i) (fst cs + j)).

(** The result of a block without its ring of depth one. *)
Definition trim (b : ndarray F) : ndarray F :=
  mk_ndarray (nrows b - 2) (ncols b - 2) (fun i j => item b (i + 1) (j + 1)).

Definition hstack (a b : ndarray F) : ndarray F :=
  mk_ndarray (nrows a) (ncols a + ncols b)
    (fun i j => if j <? ncols a then item a i j else item b i (j - ncols a)).

Definition vstack (a b : ndarray F) : ndarray F :=
  mk_ndarray (nrows a + nrows b) (ncols a)
    (fun i j => if i <? nrows a then item a i j else item b (i - nrows a) j).

Definition empty_array : ndarray F := mk_ndarray 0 0 (fun _ _ => nan).

(** [x.map_overlap(func, depth=(1, 1), boundary=np.nan,
    meta=np.array(()))]: the result is declared with a numpy meta. *)
Definition map_overlap (func : ndarray F -> outcome (ndarray F))
  (x : dask_array F) : outcome (dask_array F) :=
  let padded := pad_nan (whole x) in
  rows <- mapM (fun rs =>
            blocks <- mapM (fun cs =>
                        b <- func (overlap_block padded rs cs) ;;
                        Ok (trim b))
                      (chunk_spans 0 (chunks1 x)) ;;
            Ok (fold_right hstack empty_array blocks))
          (chunk_spans 0 (chunks0 x)) ;;
  Ok (mk_dask_array (chunks0 x) (chunks1 x)
        (fold_right vstack empty_array rows) false).

Definition _run_dask_numpy (data : dask_array F) (azimuth angle_altitude : F)
  : outcome (dask_array F) :=
  let _func := fun d => _run_numpy d azimuth angle_altitude in
  map_overlap _func data.

Definition _run_dask_cupy (data : dask_array F) (azimuth angle_altitude : F)
  : outcome (dask_array F) :=
  let msg := "Not implemented."%string in
  Raise (NotImplementedError msg).

End TiledExecutor.

(** ** The dispatcher *)

(** What [agg.data] can be. *)
Inductive array_data (F : Type) : Type :=
| np_ndarray (a : ndarray F)
| cupy_ndarray (a : ndarray F)
| da_Array (a : dask_array F)
| other_type (type_name : string).

Arguments np_ndarray {F} a.
Arguments cupy_ndarray {F} a.
Arguments da_Array {F} a.
Arguments other_type {F} type_name.

Record DataArray (F : Type) : Type := mk_DataArray {
  data : array_data F;
  name : option string;
  coords : list (string * list Q);
  dims : list string;
  attrs : list (string * string)
}.

Arguments mk_DataArray {F} data name coords dims attrs.

(** The machine the module is imported on. *)
Record runtime (F : Type) : Type := mk_runtime {
  has_cuda : bool;              (* numba finds a CUDA device *)
  cupy_imported : bool;         (* [import cupy] succeeded *)
  threads_per_block : nat;
  uninitialised : nat -> nat -> F
}.

(** The numeric routines a call can reach. *)
Inductive event : Type :=
| HostKernelRun
| DeviceKernelLaunch
| MapOverlapRun.

Section Dispatcher.
Context {F : Type} `{FloatOps F}.

(** Modelled from the spec: [is_cupy_backed] of [xrspatial/utils.py],
    which is not among the sources; it tells whether the tiles of a
    partitioned buffer are device-resident. *)
Definition is_cupy_backed (a : dask_array F) : bool := cupy_backed a.

(** [isinstance(agg.data, cupy.ndarray)]: where cupy could not be
    imported the module defines a stand-in class whose [ndarray] is
    [False], and [isinstance] refuses it. *)
Definition isinstance_cupy_ndarray (rt : runtime F) (d : array_data F)
  : outcome bool :=
  if cupy_imported rt
  then Ok (match d with cupy_ndarray _ => true | _ => false end)
  else Raise (TypeError
    "isinstance() arg 2 must be a type, a tuple of types, or a union").

Definition type_name_of (d : array_data F) : string :=
  match d with
  | np_ndarray _ => "<class 'numpy.ndarray'>"
  | cupy_ndarray _ => "<class 'cupy.ndarray'>"
  | da_Array _ => "<class 'dask.array.core.Array'>"
  | other_type n => n
  end.

(** The call returns the numeric routines it ran and its outcome.  The
    chain of tests of the source is followed for each kind of
    [agg.data]: the first test, then [has_cuda() and isinstance(...,
    cupy.ndarray)], then [has_cuda() and isinstance(..., da.Array) and
    is_cupy_backed(agg)], then [isinstance(..., da.Array)]. *)
Definition hillshade (rt : runtime F) (agg : DataArray F)
  (azimuth angle_altitude : F) (name : option string)
  : list event * outcome (DataArray F) :=
  let wrap (out : array_data F) :=
    mk_DataArray out name (coords agg) (dims agg) (attrs agg) in
  let unsupported :=
    Raise (TypeError ("Unsupported Array Type: " ++ type_name_of (data agg))) in
  match data agg with
  | np_ndarray a =>
      (* numpy case *)
      ([HostKernelRun],
       out <- _run_numpy a azimuth angle_altitude ;; Ok (wrap (np_ndarray out)))
  | cupy_ndarray a =>
      if has_cuda rt then
        match isinstance_cupy_ndarray rt (data agg) with
        | Raise e => ([], Raise e)
        | Ok _ =>
            (* cupy/numba case *)
            ([DeviceKernelLaunch],
             out <- _run_cupy (threads_per_block rt) (uninitialised rt)
                      a azimuth angle_altitude ;;
             Ok (wrap (cupy_ndarray out)))
        end
      else ([], unsupported)
  | da_Array d =>
      if has_cuda rt then
        match isinstance_cupy_ndarray rt (data agg) with
        | Raise e => ([], Raise e)
        | Ok _ =>
            if is_cupy_backed d
            then
              (* dask + cupy case *)
              ([], out <- _run_dask_cupy d azimuth angle_altitude ;;
                   Ok (wrap (da_Array out)))
            else
              (* dask + numpy case *)
              ([MapOverlapRun],
               out <- _run_dask_numpy d azimuth angle_altitude ;;
               Ok (wrap (da_Array out)))
        end
      else
        (* dask + numpy case *)
        ([MapOverlapRun],
         out <- _run_dask_numpy d azimuth angle_altitude ;;
         Ok (wrap (da_Array out)))
  | other_type _ =>
      if has_cuda rt then
        match isinstance_cupy_ndarray rt (data agg) with
        | Raise e => ([], Raise e)
        | Ok _ => ([], unsupported)
        end
      else ([], unsupported)
  end.

End Dispatcher.

(** ** Element types

    The dtype of the host kernel's result, followed through the numpy
    calls of [_run_numpy].  The floating dtypes of numpy are ordered by
    width; a Python [float] adapts to the array it meets; a numpy scalar
    that meets an array of the same kind gives way to the array's dtype
    under the value-based rules of NumPy 1 and is promoted with it under
    the rules that NumPy 2 brought (NEP 50). *)

Module DType.

Inductive dtype : Type := float16 | float32 | float64 | longdouble.

Inductive promotion : Type := ValueBased | NEP50.

Inductive operand : Type :=
| PyFloat
| NpScalar (d : dtype)
| NpArray (d : dtype).

Definition width (d : dtype) : nat :=
  match d with
  | float16 => 16
  | float32 => 32
  | float64 => 64
  | longdouble => 128
  end.

Definition itemsize (d : dtype) : nat := width d / 8.

Definition promote_types (a b : dtype) : dtype :=
  if width a <=? width b then b else a.

(** The result of a binary ufunc or operator. *)
Definition binary (p : promotion) (a b : operand) : operand :=
  match a, b with
  | PyFloat, PyFloat => PyFloat
  | PyFloat, NpArray d | NpArray d, PyFloat => NpArray d
  | NpArray d, NpArray d' => NpArray (promote_types d d')
  | NpScalar s, NpArray d | NpArray d, NpScalar s =>
      match p with
      | ValueBased => NpArray d
      | NEP50 => NpArray (promote_types s d)
      end
  | PyFloat, NpScalar s | NpScalar s, PyFloat =>
      match p with
      | ValueBased => NpScalar (promote_types float64 s)
      | NEP50 => NpScalar s
      end
  | NpScalar s, NpScalar s' => NpScalar (promote_types s s')
  end.

(** The result of a unary ufunc ([np.sin], [np.sqrt], ...) or of a
    negation. *)
Definition unary (a : operand) : operand :=
  match a with
  | PyFloat => NpScalar float64
  | other => other
  end.

(** [np.gradient] keeps a floating dtype. *)
Definition gradient_dtype (d : dtype) : operand := NpArray d.

Definition dtype_of (a : operand) : dtype :=
  match a with
  | PyFloat => float64
  | NpScalar d | NpArray d => d
  end.

(** [_run_numpy] on an array of dtype [d], with Python numbers for the two
    angles. *)
Definition _run_numpy_dtype (p : promotion) (d : dtype) : dtype :=
  let azimuth := PyFloat in
  let x := gradient_dtype d in
  let y := gradient_dtype d in
  let slope :=
    binary p PyFloat
      (unary (unary (binary p (binary p x x) (binary p y y)))) in
  let aspect := binary p (unary x) y in
  let azimuthrad := binary p (binary p azimuth PyFloat) PyFloat in
  let altituderad := binary p (binary p PyFloat PyFloat) PyFloat in
  let shaded :=
    binary p
      (binary p (unary altituderad) (unary slope))
      (binary p
         (binary p (unary altituderad) (unary slope))
         (unary (binary p (binary p azimuthrad PyFloat) aspect))) in
  let result := binary p (binary p shaded PyFloat) PyFloat in
  dtype_of result.

End DType.

(** ** The kernels, cell by cell *)

Section CellFormulas.
Context {F : Type} `{FloatOps F}.

(** What lines 27 to 36 of [_run_numpy] compute, elementwise, in a cell
    whose gradients are [x] and [y]. *)
Definition host_illum (x y : F) (azimuth angle_altitude : F) : F :=
  let azimuth := fsub (of_Q 360) azimuth in
  let slope :=
    fsub (fdiv fpi (of_Q 2)) (fatan (fsqrt (fadd (fmul x x) (fmul y y)))) in
  let aspect := fatan2 (fneg x) y in
  let azimuthrad := fdiv (fmul azimuth fpi) (of_Q 180) in
  let altituderad := fdiv (fmul angle_altitude fpi) (of_Q 180) in
  let shaded :=
    fadd (fmul (fsin altituderad) (fsin slope))
         (fmul (fmul (fcos altituderad) (fcos slope))
               (fcos (fsub (fsub azimuthrad (fdiv fpi (of_Q 2))) aspect))) in
  fdiv (fadd shaded (of_Q 1)) (of_Q 2).

(** The central differences of the cell [(i, j)]. *)
Definition central0 (data : ndarray F) (i j : nat) : F :=
  fdiv (fsub (item data (i + 1) j) (item data (i - 1) j)) (of_Q 2).

Definition central1 (data : ndarray F) (i j : nat) : F :=
  fdiv (fsub (item data i (j + 1)) (item data i (j - 1))) (of_Q 2).

(** The cell is on the outermost ring of an array of the given shape. *)
Definition on_border (r c i j : nat) : bool :=
  (i =? 0) || (i =? r - 1) || (j =? 0) || (j =? c - 1).

Definition interior (r c i j : nat) : Prop :=
  0 < i < r - 1 /\ 0 < j < c - 1.

(** The lighting constants that [_run_cupy] hands to its threads. *)
Definition device_sin_altituderad (angle_altitude : F) : F :=
  fsin (fdiv (fmul angle_altitude fpi) (of_Q 180)).

Definition device_cos_altituderad (angle_altitude : F) : F :=
  fcos (fdiv (fmul angle_altitude fpi) (of_Q 180)).

Definition device_azimuthrad (azimuth : F) : F :=
  fdiv (fmul (fsub (of_Q 360) azimuth) fpi) (of_Q 180).

(** Two arrays that differ at most in the cell [(i, j)]. *)
Definition differ_only_at (a b : ndarray F) (i j : nat) : Prop :=
  nrows a = nrows b /\ ncols a = ncols b /\
  forall i' j', (i', j') <> (i, j) -> item a i' j' = item b i' j'.

(** A dask array whose chunks tile its array. *)
Definition well_chunked (x : dask_array F) : Prop :=
  list_sum (chunks0 x) = nrows (whole x) /\
  list_sum (chunks1 x) = ncols (whole x).

(** The central differences that a block with its halo sees: those of
    the whole array with its ring of not-a-number. *)
Definition padded_central0 (d : ndarray F) (i j : nat) : F :=
  fdiv (fsub (item (pad_nan d) (i + 2) (j + 1)) (item (pad_nan d) i (j + 1)))
       (of_Q 2).

Definition padded_central1 (d : ndarray F) (i j : nat) : F :=
  fdiv (fsub (item (pad_nan d) (i + 1) (j + 2)) (item (pad_nan d) (i + 1) j))
       (of_Q 2).

Definition forced (m : outcome (ndarray F)) : ndarray F :=
  match m with
  | Ok a => a
  | Raise _ => empty_array
  end.

(** The host kernel on one block with its halo, trimmed. *)
Definition tile (d : ndarray F) (az alt : F) (rs cs : nat * nat) : ndarray F :=
  trim (forced (_run_numpy (overlap_block (pad_nan d) rs cs) az alt)).

End CellFormulas.

Section RealFormulas.
Local Open Scope R_scope.



End RealFormulas.

(** ** Sample inputs *)

Section Samples.
Local Open Scope R_scope.

(** A 3 by 3 grid whose cell [(i, j)] is at elevation [3 i + j]. *)
Definition ramp3 : ndarray Rext :=
  mk_ndarray 3 3 (fun i j => RFin (INR (3 * i + j))).

(** The same grid, but for its centre. *)
Definition ramp3_peak : ndarray Rext :=
  setitem ramp3 1 1 (RFin 1000).

(** The ramp in four blocks: of heights 2 and 1, of widths 1 and 2. *)
Definition ramp3_tiled : dask_array Rext :=
  mk_dask_array [2; 1]%nat [1; 2]%nat ramp3 false.

(** The ramp in device-resident blocks. *)
Definition ramp3_device_tiled : dask_array Rext :=
  mk_dask_array [2; 1]%nat [1; 2]%nat ramp3 true.

(** A flat 3 by 3 grid at the elevation [c]. *)
Definition flat3 (c : R) : ndarray Rext :=
  mk_ndarray 3 3 (fun _ _ => RFin c).

(** A single row of three cells. *)
Definition row3 : ndarray Rext :=
  mk_ndarray 1 3 (fun _ _ => RFin 0).

(** A flat grid with no data south of its centre: not-a-number, or
    plus infinity. *)
Definition nan_south3 : ndarray Rext :=
  setitem (flat3 0) 2 1 RNaN.

Definition inf_south3 : ndarray Rext :=
  setitem (flat3 0) 2 1 (RInf false).

Definition labelled (d : array_data Rext) : DataArray Rext :=
  mk_DataArray d (Some "Elevation"%string)
    [("lat"%string, [0; 1; 2]%Q); ("lon"%string, [0; 1; 2]%Q)]
    ["lat"%string; "lon"%string]
    [("units"%string, "km"%string)].

(** A machine with a CUDA device, and one where numba finds none. *)
Definition with_device : runtime Rext :=
  mk_runtime true true 16 (fun _ _ => RFin 0).

Definition without_device : runtime Rext :=
  mk_runtime false true 16 (fun _ _ => RFin 0).

End Samples.

(** ** Inputs the routines are meant for *)

Section Inputs.

Context {F : Type} `{FloatOps F}.

(** Two grids of one shape with the same four neighbours around the
    cell [(i, j)]. *)
Definition same_neighbours (a b : ndarray F) (i j : nat) : Prop :=
  nrows a = nrows b /\ ncols a = ncols b /\
  item a (i - 1) j = item b (i - 1) j /\
  item a (i + 1) j = item b (i + 1) j /\
  item a i (j - 1) = item b i (j - 1) /\
  item a i (j + 1) = item b i (j + 1).

(** A grid large enough for the routine its kind of data is sent to, and
    chunks that tile it. *)
Definition usable (d : array_data F) : Prop :=
  match d with
  | np_ndarray a => 2 <= nrows a /\ 2 <= ncols a
  | cupy_ndarray a => 1 <= nrows a /\ 1 <= ncols a
  | da_Array x =>
      well_chunked x /\ 1 <= nrows (whole x) /\ 1 <= ncols (whole x)
  | other_type _ => True
  end.

(** The kind of the data of a result [d'] for the data [d] of the
    input: numpy for numpy, cupy for cupy, and for dask a dask array of
    the same chunks that is declared with a numpy meta. *)
Definition same_kind (d d' : array_data F) : Prop :=
  match d, d' with
  | np_ndarray _, np_ndarray _ => True
  | cupy_ndarray _, cupy_ndarray _ => True
  | da_Array x, da_Array x' =>
      chunks0 x' = chunks0 x /\ chunks1 x' = chunks1 x /\
      cupy_backed x' = false
  | _, _ => False
  end.

(** The threads of a launch, run one after the other in the order of the
    list. *)
Definition run_threads (d : ndarray F) (s c a : F)
  (threads : list (nat * nat)) (output : ndarray F) : ndarray F :=
  fold_left (fun out ij => _gpu_calc_numba d out s c a (fst ij) (snd ij))
            threads output.

End Inputs.

(** More sample inputs. *)

Section MoreSamples.
Local Open Scope R_scope.

(** The ramp in three blocks of one row each. *)
Definition ramp3_rows : dask_array Rext :=
  mk_dask_array [1; 1; 1]%nat [3]%nat ramp3 false.

(** The ramp with another north-west corner. *)
Definition ramp3_corner : ndarray Rext :=
  setitem ramp3 0 0 (RFin 1000).

(** A single row in one block. *)
Definition row3_tiled : dask_array Rext :=
  mk_dask_array [1]%nat [3]%nat row3 false.

(** A grid of two rows. *)
Definition two_rows : ndarray Rext :=
  mk_ndarray 2 3 (fun i j => RFin (INR (3 * i + j))).

(** A machine with a CUDA device on which cupy could not be imported. *)
Definition device_without_cupy : runtime Rext :=
  mk_runtime true false 16 (fun _ _ => RFin 0).

(** A 4 by 4 grid whose cell [(i, j)] is at elevation [4 i + j]: it has
    four interior cells.  And a buffer of its shape. *)
Definition ramp4 : ndarray Rext :=
  mk_ndarray 4 4 (fun i j => RFin (INR (4 * i + j))).

Definition zeros4 : ndarray Rext :=
  mk_ndarray 4 4 (fun _ _ => RFin 0).

(** The sixteen threads of one block of 4 by 4. *)
Definition block4 : list (nat * nat) :=
  [(0, 0); (0, 1); (0, 2); (0, 3); (1, 0); (1, 1); (1, 2); (1, 3);
   (2, 0); (2, 1); (2, 2); (2, 3); (3, 0); (3, 1); (3, 2); (3, 3)]%nat.

End MoreSamples.

Unset Implicit Arguments.

(** * Properties *)

Section HostKernelFacts.
Context {F : Type} `{FloatOps F}.

Lemma gradient_Ok (f : ndarray F) :
  2 <= nrows f -> 2 <= ncols f ->
  gradient f = Ok (gradient_axis0 f, gradient_axis1 f).
Proof.
  intros Hr Hc. unfold gradient.
  destruct (nrows f <? 2) eqn:E1; [apply Nat.ltb_lt in E1; lia|].
  destruct (ncols f <? 2) eqn:E2; [apply Nat.ltb_lt in E2; lia|].
  reflexivity.
Qed.

Lemma gradient_Raise (f : ndarray F) :
  nrows f < 2 \/ ncols f < 2 ->
  exists msg, gradient f = Raise (ValueError msg).
Proof.
  intros Hs. unfold gradient.
  destruct (nrows f <? 2) eqn:E1; [simpl; eauto|].
  destruct (ncols f <? 2) eqn:E2; [simpl; eauto|].
  apply Nat.ltb_ge in E1, E2. lia.
Qed.

Lemma gradient_axis0_interior (f : ndarray F) (i j : nat) :
  0 < i < nrows f - 1 ->
  item (gradient_axis0 f) i j = central0 f i j.
Proof.
  intros Hi. unfold gradient_axis0, central0. simpl.
  destruct (i =? 0) eqn:E0; [apply Nat.eqb_eq in E0; lia|].
  destruct (i =? nrows f - 1) eqn:E1; [apply Nat.eqb_eq in E1; lia|].
  reflexivity.
Qed.

Lemma gradient_axis1_interior (f : ndarray F) (i j : nat) :
  0 < j < ncols f - 1 ->
  item (gradient_axis1 f) i j = central1 f i j.
Proof.
  intros Hj. unfold gradient_axis1, central1. simpl.
  destruct (j =? 0) eqn:E0; [apply Nat.eqb_eq in E0; lia|].
  destruct (j =? ncols f - 1) eqn:E1; [apply Nat.eqb_eq in E1; lia|].
  reflexivity.
Qed.

(** The host kernel, when it returns, returns an array of the shape of
    its input whose outermost ring is not-a-number and whose other cells
    hold [host_illum] of the gradients. *)
Lemma run_numpy_cells (d out : ndarray F) (az alt : F) :
  _run_numpy d az alt = Ok out ->
  nrows out = nrows d /\ ncols out = ncols d /\
  forall i j,
    item out i j =
    if on_border (nrows d) (ncols d) i j then nan
    else host_illum (item (gradient_axis0 d) i j)
                    (item (gradient_axis1 d) i j) az alt.
Proof.
  unfold _run_numpy. destruct (gradient d) as [[x y]|e] eqn:G; simpl; [|discriminate].
  intros E. injection E as <-. simpl.
  unfold gradient in G.
  destruct ((nrows d <? 2) || (ncols d <? 2)); [discriminate|].
  injection G as <- <-. simpl.
  repeat split. intros i j. unfold on_border.
  rewrite !orb_false_r.
  destruct (j =? 0); [rewrite !orb_true_r; reflexivity|].
  destruct (j =? ncols d - 1); [rewrite !orb_true_r; reflexivity|].
  rewrite !orb_false_r. simpl.
  destruct (i =? 0); [reflexivity|].
  destruct (i =? nrows d - 1); reflexivity.
Qed.

Lemma run_numpy_returns (d : ndarray F) (az alt : F) :
  2 <= nrows d -> 2 <= ncols d ->
  exists out, _run_numpy d az alt = Ok out.
Proof.
  intros Hr Hc. unfold _run_numpy. rewrite (gradient_Ok d Hr Hc). simpl.
  eexists. reflexivity.
Qed.

Lemma run_numpy_raises (d : ndarray F) (az alt : F) :
  nrows d < 2 \/ ncols d < 2 ->
  exists msg, _run_numpy d az alt = Raise (ValueError msg).
Proof.
  intros Hs. unfold _run_numpy.
  destruct (gradient_Raise d Hs) as [msg ->]. simpl. eauto.
Qed.

Lemma on_border_interior (r c i j : nat) :
  interior r c i j -> on_border r c i j = false.
Proof.
  intros [Hi Hj]. unfold on_border.
  destruct (i =? 0) eqn:A; [apply Nat.eqb_eq in A; lia|].
  destruct (i =? r - 1) eqn:B; [apply Nat.eqb_eq in B; lia|].
  destruct (j =? 0) eqn:C; [apply Nat.eqb_eq in C; lia|].
  destruct (j =? c - 1) eqn:D; [apply Nat.eqb_eq in D; lia|].
  reflexivity.
Qed.

Lemma run_numpy_interior (d out : ndarray F) (az alt : F) (i j : nat) :
  _run_numpy d az alt = Ok out ->
  interior (nrows d) (ncols d) i j ->
  item out i j = host_illum (central0 d i j) (central1 d i j) az alt.
Proof.
  intros E Hin. destruct (run_numpy_cells _ _ _ _ E) as (_ & _ & Hc).
  rewrite Hc, (on_border_interior _ _ _ _ Hin).
  destruct Hin as [Hi Hj].
  rewrite gradient_axis0_interior, gradient_axis1_interior by assumption.
  reflexivity.
Qed.

End HostKernelFacts.

Section DeviceKernelFacts.
Context {F : Type} `{FloatOps F}.

Variables (d : ndarray F) (s c a : F).

Let thread (out : ndarray F) (ij : nat * nat) : ndarray F :=
  _gpu_calc_numba d out s c a (fst ij) (snd ij).

Let cell (i j : nat) : F :=
  to_f32 (gpu_illum (of_Q 1.57079632679) (central0 d i j) (central1 d i j) s c a).

Lemma interior_guard (i j : nat) :
  (0 <? i) && (i <? nrows d - 1) && (0 <? j) && (j <? ncols d - 1) = true
  <-> interior (nrows d) (ncols d) i j.
Proof.
  unfold interior. rewrite !andb_true_iff, !Nat.ltb_lt. tauto.
Qed.

Lemma thread_shape (out : ndarray F) (ij : nat * nat) :
  nrows (thread out ij) = nrows out /\ ncols (thread out ij) = ncols out.
Proof.
  unfold thread, _gpu_calc_numba.
  destruct (_ && _); simpl; auto.
Qed.

Lemma thread_item (out : ndarray F) (ij : nat * nat) (i j : nat) :
  item (thread out ij) i j =
  if (0 <? i) && (i <? nrows d - 1) && (0 <? j) && (j <? ncols d - 1)
     && (i =? fst ij) && (j =? snd ij)
  then cell i j else item out i j.
Proof.
  unfold thread, _gpu_calc_numba, cell, central0, central1.
  destruct ij as [ti tj]; simpl.
  destruct (i =? ti) eqn:Ei; destruct (j =? tj) eqn:Ej;
    try apply Nat.eqb_eq in Ei; try apply Nat.eqb_eq in Ej; subst;
    rewrite ?andb_false_r; simpl;
    destruct ((0 <? _) && _ && _ && _) eqn:G; simpl;
    rewrite ?Nat.eqb_refl, ?Ei, ?Ej, ?andb_false_r; simpl; reflexivity.
Qed.

Lemma threads_shape (l : list (nat * nat)) (out : ndarray F) :
  nrows (fold_left thread l out) = nrows out /\
  ncols (fold_left thread l out) = ncols out.
Proof.
  revert out. induction l as [|t l IH]; intros out; simpl; [auto|].
  destruct (IH (thread out t)) as [-> ->]. apply thread_shape.
Qed.

(** Threads leave alone the cells that are not strictly inside. *)
Lemma threads_outside (l : list (nat * nat)) (out : ndarray F) (i j : nat) :
  ~ interior (nrows d) (ncols d) i j ->
  item (fold_left thread l out) i j = item out i j.
Proof.
  intros Hn. revert out. induction l as [|t l IH]; intros out; simpl; [auto|].
  rewrite IH, thread_item.
  destruct ((0 <? i) && _ && _ && _) eqn:G; [|reflexivity].
  apply interior_guard in G. contradiction.
Qed.

(** A cell strictly inside holds the value of its thread, whatever the
    other threads and the order. *)
Lemma threads_inside (l : list (nat * nat)) (out : ndarray F) (i j : nat) :
  interior (nrows d) (ncols d) i j ->
  In (i, j) l ->
  item (fold_left thread l out) i j = cell i j.
Proof.
  intros Hin. apply interior_guard in Hin.
  assert (Hkeep : forall l' o, item o i j = cell i j ->
                    item (fold_left thread l' o) i j = cell i j).
  { induction l' as [|t l' IH]; intros o Ho; simpl; [exact Ho|].
    apply IH. rewrite thread_item, Hin. simpl.
    destruct (i =? fst t), (j =? snd t); simpl; auto. }
  revert out. induction l as [|t l IH]; intros out Hl; simpl; [destruct Hl|].
  destruct Hl as [->|Hl]; [|auto].
  apply Hkeep. rewrite thread_item. simpl. rewrite Hin, !Nat.eqb_refl. reflexivity.
Qed.

End DeviceKernelFacts.

Section LaunchFacts.
Context {F : Type} `{FloatOps F}.

Lemma ceil_blocks_cover (n tpb : nat) :
  0 < tpb -> n <= (n + tpb - 1) / tpb * tpb.
Proof.
  intros Ht.
  pose proof (Nat.div_mod_eq (n + tpb - 1) tpb) as E.
  pose proof (Nat.mod_upper_bound (n + tpb - 1) tpb) as U.
  nia.
Qed.

(** The launch of [_run_cupy] has a thread for every cell. *)
Lemma cuda_args_cover (tpb r c i j : nat) :
  0 < tpb -> i < r -> j < c ->
  In (i, j) (cuda_grid (fst (cuda_args tpb (r, c))) (snd (cuda_args tpb (r, c)))).
Proof.
  intros Ht Hi Hj. unfold cuda_grid, cuda_args. simpl.
  apply in_prod; apply in_seq; split; try lia; simpl.
  - pose proof (ceil_blocks_cover r tpb Ht). lia.
  - pose proof (ceil_blocks_cover c tpb Ht). lia.
Qed.

(** The device kernel, on a grid that has a cell, returns an array of the
    shape of its input whose outermost ring is not-a-number; with a
    positive block side, the other cells hold the rounding of [gpu_illum]
    at the central differences. *)
Lemma run_cupy_cells (tpb : nat) (empty : nat -> nat -> F)
  (d : ndarray F) (az alt : F) :
  1 <= nrows d -> 1 <= ncols d ->
  exists out,
    _run_cupy tpb empty d az alt = Ok out /\
    nrows out = nrows d /\ ncols out = ncols d /\
    (forall i j, on_border (nrows d) (ncols d) i j = true -> item out i j = nan) /\
    (0 < tpb -> forall i j, interior (nrows d) (ncols d) i j ->
       item out i j =
       to_f32 (gpu_illum (of_Q 1.57079632679) (central0 d i j) (central1 d i j)
                 (device_sin_altituderad alt) (device_cos_altituderad alt)
                 (device_azimuthrad az))).
Proof.
  intros Hr Hc. unfold _run_cupy.
  destruct (cuda_args tpb (shape d)) as [griddim blockdim] eqn:Eargs.
  unfold launch.
  match goal with |- context [fold_left ?f ?l ?o] =>
    set (th := f); set (l0 := l); set (o0 := o) end.
  assert (Sh : nrows (fold_left th l0 o0) = nrows d /\
               ncols (fold_left th l0 o0) = ncols d)
    by exact (threads_shape d _ _ _ l0 o0).
  destruct Sh as [Sr Sc].
  destruct (nrows (fold_left th l0 o0) =? 0) eqn:Z0;
    [apply Nat.eqb_eq in Z0; lia|].
  destruct (ncols (fold_left th l0 o0) =? 0) eqn:Z1;
    [apply Nat.eqb_eq in Z1; lia|].
  simpl. eexists. split; [reflexivity|]. simpl.
  rewrite Sr, Sc. repeat split.
  - intros i j. unfold on_border. rewrite !orb_false_r.
    destruct (j =? ncols d - 1); [reflexivity|].
    destruct (j =? 0); [reflexivity|].
    destruct (i =? nrows d - 1); [reflexivity|].
    destruct (i =? 0); [reflexivity|]. discriminate.
  - intros Ht i j Hin. pose proof (on_border_interior _ _ _ _ Hin) as Hb.
    unfold on_border in Hb. rewrite !orb_false_r.
    apply orb_false_elim in Hb as [Hb ->].
    apply orb_false_elim in Hb as [Hb ->].
    apply orb_false_elim in Hb as [-> ->].
    refine (threads_inside d (device_sin_altituderad alt)
              (device_cos_altituderad alt) (device_azimuthrad az) l0 o0 i j Hin _).
    unfold l0. replace griddim with (fst (cuda_args tpb (shape d))) by (rewrite Eargs; reflexivity).
    replace blockdim with (snd (cuda_args tpb (shape d))) by (rewrite Eargs; reflexivity).
    destruct Hin as [Hi Hj].
    apply cuda_args_cover; [assumption| lia | lia].
Qed.

End LaunchFacts.

Section TiledExecutorFacts.
Context {F : Type} `{FloatOps F}.

Lemma mapM_Ok {A B : Type} (f : A -> outcome B) (g : A -> B) (l : list A) :
  (forall a, In a l -> f a = Ok (g a)) -> mapM f l = Ok (map g l).
Proof.
  induction l as [|a l IH]; intros Hf; simpl; [reflexivity|].
  rewrite (Hf a (or_introl eq_refl)). simpl.
  rewrite IH by (intros; apply Hf; right; assumption). reflexivity.
Qed.

(** Blocks laid side by side: the column [k] of the row falls in one
    span, and is read in the block of that span. *)
Lemma hstack_blocks_item (B : nat * nat -> ndarray F) (cs : list nat) :
  (forall sp, ncols (B sp) = snd sp) ->
  forall s i k, k < list_sum cs ->
  exists c0 w,
    In (c0, w) (chunk_spans s cs) /\ c0 <= s + k < c0 + w /\
    item (fold_right hstack empty_array (map B (chunk_spans s cs))) i k =
    item (B (c0, w)) i (s + k - c0).
Proof.
  intros HB. induction cs as [|c cs IH]; intros s i k Hk; simpl in *; [lia|].
  rewrite HB. simpl. destruct (k <? c) eqn:E.
  - apply Nat.ltb_lt in E. exists s, c. repeat split; auto; try lia.
    f_equal. lia.
  - apply Nat.ltb_ge in E.
    destruct (IH (s + c) i (k - c)) as (c0 & w & Hin & Hr & Hv); [lia|].
    exists c0, w. repeat split; auto; try lia.
    rewrite Hv. f_equal. lia.
Qed.

Lemma hstack_blocks_shape (B : nat * nat -> ndarray F) (cs : list nat) (h : nat) :
  (forall sp, ncols (B sp) = snd sp) ->
  (forall sp, nrows (B sp) = h) ->
  forall s,
    ncols (fold_right hstack empty_array (map B (chunk_spans s cs))) = list_sum cs /\
    (cs <> [] ->
     nrows (fold_right hstack empty_array (map B (chunk_spans s cs))) = h).
Proof.
  intros HBc HBr. induction cs as [|c cs IH]; intros s; simpl.
  - split; [reflexivity|congruence].
  - destruct (IH (s + c)) as [-> _]. rewrite HBc, HBr. simpl. auto.
Qed.

(** Rows of blocks laid one under the other. *)
Lemma vstack_blocks_item (B : nat * nat -> ndarray F) (rs : list nat) :
  (forall sp, nrows (B sp) = snd sp) ->
  forall s k j, k < list_sum rs ->
  exists r0 h,
    In (r0, h) (chunk_spans s rs) /\ r0 <= s + k < r0 + h /\
    item (fold_right vstack empty_array (map B (chunk_spans s rs))) k j =
    item (B (r0, h)) (s + k - r0) j.
Proof.
  intros HB. induction rs as [|r rs IH]; intros s k j Hk; simpl in *; [lia|].
  rewrite HB. simpl. destruct (k <? r) eqn:E.
  - apply Nat.ltb_lt in E. exists s, r. repeat split; auto; try lia.
    f_equal. lia.
  - apply Nat.ltb_ge in E.
    destruct (IH (s + r) (k - r) j) as (r0 & h & Hin & Hr & Hv); [lia|].
    exists r0, h. repeat split; auto; try lia.
    rewrite Hv. f_equal. lia.
Qed.

Lemma vstack_blocks_shape (B : nat * nat -> ndarray F) (rs : list nat) (w : nat) :
  (forall sp, nrows (B sp) = snd sp) ->
  (forall sp, ncols (B sp) = w) ->
  forall s,
    nrows (fold_right vstack empty_array (map B (chunk_spans s rs))) = list_sum rs /\
    (rs <> [] ->
     ncols (fold_right vstack empty_array (map B (chunk_spans s rs))) = w).
Proof.
  intros HBr HBc. induction rs as [|r rs IH]; intros s; simpl.
  - split; [reflexivity|congruence].
  - destruct (IH (s + r)) as [-> _]. rewrite HBr, HBc. simpl. auto.
Qed.

Lemma pad_nan_inside (d : ndarray F) (i j : nat) :
  i < nrows d -> j < ncols d ->
  item (pad_nan d) (S i) (S j) = item d i j.
Proof.
  intros Hi Hj. unfold pad_nan. cbv beta iota delta [item].
  replace (1 <=? S i) with true by (symmetry; apply Nat.leb_le; lia).
  replace (S i <=? nrows d) with true by (symmetry; apply Nat.leb_le; lia).
  replace (1 <=? S j) with true by (symmetry; apply Nat.leb_le; lia).
  replace (S j <=? ncols d) with true by (symmetry; apply Nat.leb_le; lia).
  cbn [andb]. f_equal; lia.
Qed.

Lemma pad_nan_outside (d : ndarray F) (i j : nat) :
  i = 0 \/ nrows d < i \/ j = 0 \/ ncols d < j ->
  item (pad_nan d) i j = nan.
Proof.
  intros Ho. unfold pad_nan. cbv beta iota delta [item].
  destruct (1 <=? i) eqn:A; [|reflexivity].
  destruct (i <=? nrows d) eqn:B; [|reflexivity].
  destruct (1 <=? j) eqn:C; [|reflexivity].
  destruct (j <=? ncols d) eqn:D; [|reflexivity].
  apply Nat.leb_le in A, B, C, D. lia.
Qed.

Lemma padded_central0_interior (d : ndarray F) (i j : nat) :
  0 < i < nrows d - 1 -> j < ncols d ->
  padded_central0 d i j = central0 d i j.
Proof.
  intros Hi Hj. unfold padded_central0, central0.
  replace (i + 2) with (S (i + 1)) by lia.
  replace (j + 1) with (S j) by lia.
  replace i with (S (i - 1)) at 2 by lia.
  rewrite !pad_nan_inside by lia. reflexivity.
Qed.

Lemma padded_central1_interior (d : ndarray F) (i j : nat) :
  i < nrows d -> 0 < j < ncols d - 1 ->
  padded_central1 d i j = central1 d i j.
Proof.
  intros Hi Hj. unfold padded_central1, central1.
  replace (j + 2) with (S (j + 1)) by lia.
  replace (i + 1) with (S i) by lia.
  replace j with (S (j - 1)) at 2 by lia.
  rewrite !pad_nan_inside by lia. reflexivity.
Qed.

Lemma run_numpy_on_block (d : ndarray F) (az alt : F) (rs cs : nat * nat) :
  _run_numpy (overlap_block (pad_nan d) rs cs) az alt =
  Ok (forced (_run_numpy (overlap_block (pad_nan d) rs cs) az alt)).
Proof.
  destruct (run_numpy_returns (overlap_block (pad_nan d) rs cs) az alt) as [o ->];
    simpl; try lia. reflexivity.
Qed.

Lemma tile_shape (d : ndarray F) (az alt : F) (rs cs : nat * nat) :
  nrows (tile d az alt rs cs) = snd rs /\ ncols (tile d az alt rs cs) = snd cs.
Proof.
  unfold tile.
  destruct (run_numpy_cells _ _ _ _ (run_numpy_on_block d az alt rs cs)) as (Hr & Hc & _).
  simpl. rewrite Hr, Hc. simpl. lia.
Qed.

Lemma tile_item (d : ndarray F) (az alt : F) (r0 h c0 w a b : nat) :
  a < h -> b < w ->
  item (tile d az alt (r0, h) (c0, w)) a b =
  host_illum (padded_central0 d (r0 + a) (c0 + b))
             (padded_central1 d (r0 + a) (c0 + b)) az alt.
Proof.
  intros Ha Hb. unfold tile.
  assert (Hin : interior (nrows (overlap_block (pad_nan d) (r0, h) (c0, w)))
                         (ncols (overlap_block (pad_nan d) (r0, h) (c0, w)))
                         (a + 1) (b + 1))
    by (unfold interior; simpl; lia).
  simpl item at 1.
  rewrite (run_numpy_interior _ _ _ _ _ _ (run_numpy_on_block d az alt (r0, h) (c0, w)) Hin).
  unfold central0, central1, padded_central0, padded_central1.
  cbn [overlap_block item fst snd].
  f_equal; f_equal; f_equal; f_equal; lia.
Qed.

(** The tiled executor always returns; its result has the shape and the
    chunks of its input, and each cell holds [host_illum] of the central
    differences of the padded array. *)
Lemma run_dask_numpy_cells (x : dask_array F) (az alt : F) :
  well_chunked x -> 1 <= nrows (whole x) -> 1 <= ncols (whole x) ->
  exists out,
    _run_dask_numpy x az alt = Ok out /\
    nrows (whole out) = nrows (whole x) /\
    ncols (whole out) = ncols (whole x) /\
    chunks0 out = chunks0 x /\ chunks1 out = chunks1 x /\
    forall i j, i < nrows (whole x) -> j < ncols (whole x) ->
      item (whole out) i j =
      host_illum (padded_central0 (whole x) i j)
                 (padded_central1 (whole x) i j) az alt.
Proof.
  intros [Hr Hc] HR HC. unfold _run_dask_numpy, map_overlap.
  set (d := whole x) in *.
  set (row := fun rs => fold_right hstack empty_array
                          (map (tile d az alt rs) (chunk_spans 0 (chunks1 x)))).
  rewrite (mapM_Ok _ row).
  2:{ intros rs _. unfold row.
      rewrite (mapM_Ok _ (tile d az alt rs)); [reflexivity|].
      intros cs _. rewrite run_numpy_on_block. reflexivity. }
  simpl. eexists. split; [reflexivity|]. simpl.
  assert (Hne1 : chunks1 x <> []) by (intros E; rewrite E in Hc; simpl in Hc; lia).
  assert (Hne0 : chunks0 x <> []) by (intros E; rewrite E in Hr; simpl in Hr; lia).
  assert (Hrow_r : forall sp, nrows (row sp) = snd sp).
  { intros sp. unfold row.
    apply hstack_blocks_shape with (h := snd sp); auto;
      intros; apply tile_shape. }
  assert (Hrow_c : forall sp, ncols (row sp) = ncols d).
  { intros sp. unfold row. rewrite <- Hc.
    apply hstack_blocks_shape with (h := snd sp);
      intros; apply tile_shape. }
  destruct (@vstack_blocks_shape row (chunks0 x) (ncols d) Hrow_r Hrow_c 0) as [Sr Sc].
  rewrite Sr, (Sc Hne0). repeat split; auto.
  intros i j Hi Hj.
  destruct (@vstack_blocks_item row (chunks0 x) Hrow_r 0 i j) as (r0 & h & _ & Hri & ->);
    [lia|].
  unfold row at 1.
  destruct (@hstack_blocks_item (tile d az alt (r0, h)) (chunks1 x)
              (fun sp => proj2 (tile_shape d az alt (r0, h) sp)) 0 (0 + i - r0) j)
    as (c0 & w & _ & Hcj & ->); [lia|].
  rewrite tile_item by lia.
  repeat (f_equal; try lia).
Qed.

End TiledExecutorFacts.

(** ** Arithmetic on [Rext] *)

Section RextFacts.
Local Open Scope R_scope.

Lemma Q2R_1 : Q2R 1 = 1.
Proof. unfold Q2R; simpl; lra. Qed.

Lemma Q2R_2 : Q2R 2 = 2.
Proof. unfold Q2R; simpl; lra. Qed.

Lemma Q2R_180 : Q2R 180 = 180.
Proof. unfold Q2R; simpl; lra. Qed.

Lemma Q2R_360 : Q2R 360 = 360.
Proof. unfold Q2R; simpl; lra. Qed.


Lemma Reqb_false (a b : R) : a <> b -> RextOps.Reqb a b = false.
Proof. intros Hn. unfold RextOps.Reqb. destruct (Req_dec_T a b); [contradiction|reflexivity]. Qed.

Lemma Reqb_true (a : R) : RextOps.Reqb a a = true.
Proof. unfold RextOps.Reqb. destruct (Req_dec_T a a); [reflexivity|contradiction]. Qed.

Lemma Rltb_false (a b : R) : b <= a -> RextOps.Rltb a b = false.
Proof. intros Hn. unfold RextOps.Rltb. destruct (Rlt_dec a b); [lra|reflexivity]. Qed.


Lemma div_fin (a b : R) :
  b <> 0 -> RextOps.div (RFin a) (RFin b) = RFin (a / b).
Proof. intros Hb. simpl. rewrite (Reqb_false _ _ Hb). reflexivity. Qed.





(** *** Not-a-number goes through both formulas *)

Lemma add_nan_r (a : Rext) : RextOps.add a RNaN = RNaN.
Proof. destruct a; reflexivity. Qed.

Lemma sub_nan_r (a : Rext) : RextOps.sub a RNaN = RNaN.
Proof. destruct a; reflexivity. Qed.

Lemma mul_nan_r (a : Rext) : RextOps.mul a RNaN = RNaN.
Proof. destruct a; reflexivity. Qed.

Lemma host_illum_nan_x (y az alt : Rext) : host_illum RNaN y az alt = RNaN.
Proof.
  unfold host_illum.
  cbn [fadd fsub fmul fdiv fneg fsqrt fsin fcos fatan fatan2 fpi of_Q Rext_FloatOps].
  cbn [RextOps.mul RextOps.add RextOps.sqrt RextOps.atan].
  rewrite sub_nan_r. cbn [RextOps.sin]. rewrite mul_nan_r. reflexivity.
Qed.

Lemma host_illum_nan_y (x az alt : Rext) : host_illum x RNaN az alt = RNaN.
Proof.
  unfold host_illum.
  cbn [fadd fsub fmul fdiv fneg fsqrt fsin fcos fatan fatan2 fpi of_Q Rext_FloatOps].
  cbn [RextOps.mul]. rewrite add_nan_r.
  cbn [RextOps.sqrt RextOps.atan].
  rewrite sub_nan_r. cbn [RextOps.sin]. rewrite mul_nan_r. reflexivity.
Qed.

Lemma central0_nan (d : ndarray Rext) (i j : nat) :
  item d (i - 1) j = RNaN \/ item d (i + 1) j = RNaN ->
  central0 d i j = RNaN.
Proof.
  unfold central0.
  cbn [fsub fdiv of_Q Rext_FloatOps].
  intros [-> | ->]; [rewrite sub_nan_r|]; reflexivity.
Qed.

Lemma central1_nan (d : ndarray Rext) (i j : nat) :
  item d i (j - 1) = RNaN \/ item d i (j + 1) = RNaN ->
  central1 d i j = RNaN.
Proof.
  unfold central1.
  cbn [fsub fdiv of_Q Rext_FloatOps].
  intros [-> | ->]; [rewrite sub_nan_r|]; reflexivity.
Qed.

End RextFacts.

(** * The claims *)

Section StructuralClaims.
Context {F : Type} `{FloatOps F}.

(** C1.  Tiled execution against single-buffer execution.  For every
    host-resident grid with its chunks, and every azimuth and altitude,
    [map_overlap] with a halo of one cell around the host kernel returns,
    the host kernel on the whole grid returns, the two results have the
    same shape, and every interior cell (not on the outermost row or
    column of the whole grid) has the same value in both: exactly, since
    both apply the same operations in the same order to the same
    neighbours. *)
Theorem tiled_interior_equals_single_buffer
  (x : dask_array F) (azimuth angle_altitude : F) :
  well_chunked x ->
  2 <= nrows (whole x) -> 2 <= ncols (whole x) ->
  exists tiled single,
    _run_dask_numpy x azimuth angle_altitude = Ok tiled /\
    _run_numpy (whole x) azimuth angle_altitude = Ok single /\
    nrows (whole tiled) = nrows single /\
    ncols (whole tiled) = ncols single /\
    forall i j,
      interior (nrows (whole x)) (ncols (whole x)) i j ->
      item (whole tiled) i j = item single i j.
Proof.
  intros Hw Hr Hc.
  destruct (run_dask_numpy_cells x azimuth angle_altitude Hw)
    as (tiled & Et & Tr & Tc & _ & _ & Tcell); try lia.
  destruct (run_numpy_returns (whole x) azimuth angle_altitude Hr Hc)
    as [single Es].
  destruct (run_numpy_cells _ _ _ _ Es) as (Sr & Sc & _).
  exists tiled, single. repeat split; auto; try congruence.
  intros i j Hin.
  rewrite (run_numpy_interior _ _ _ _ _ _ Es Hin).
  destruct Hin as [Hi Hj].
  rewrite Tcell by lia.
  rewrite padded_central0_interior, padded_central1_interior by lia.
  reflexivity.
Qed.

(** C3.  Borders are undefined on both kernels.  For every grid of shape
    (R, C) with R, C >= 2, the host kernel returns and the device kernel
    returns (whatever the block side and the contents of the buffer it
    allocates), both with an output of shape (R, C), and in both outputs
    every cell of row 0, row R-1, column 0 and column C-1 is
    not-a-number. *)
Theorem border_is_nan_on_both_kernels
  (d : ndarray F) (azimuth angle_altitude : F) :
  2 <= nrows d -> 2 <= ncols d ->
  (exists out,
     _run_numpy d azimuth angle_altitude = Ok out /\
     nrows out = nrows d /\ ncols out = ncols d /\
     forall i j,
       i = 0 \/ i = nrows d - 1 \/ j = 0 \/ j = ncols d - 1 ->
       item out i j = nan) /\
  (forall tpb empty,
   exists out,
     _run_cupy tpb empty d azimuth angle_altitude = Ok out /\
     nrows out = nrows d /\ ncols out = ncols d /\
     forall i j,
       i = 0 \/ i = nrows d - 1 \/ j = 0 \/ j = ncols d - 1 ->
       item out i j = nan).
Proof.
  intros Hr Hc.
  assert (Hb : forall i j,
             i = 0 \/ i = nrows d - 1 \/ j = 0 \/ j = ncols d - 1 ->
             on_border (nrows d) (ncols d) i j = true).
  { intros i j Hij. unfold on_border.
    destruct Hij as [-> | [-> | [-> | ->]]];
      rewrite ?Nat.eqb_refl, ?orb_true_r; reflexivity. }
  split.
  - destruct (run_numpy_returns d azimuth angle_altitude Hr Hc) as [out E].
    destruct (run_numpy_cells _ _ _ _ E) as (Sr & Sc & Hcell).
    exists out. split; [exact E|]. split; [exact Sr|]. split; [exact Sc|].
    intros i j Hij. rewrite Hcell, (Hb i j Hij). reflexivity.
  - intros tpb empty.
    destruct (run_cupy_cells tpb empty d azimuth angle_altitude)
      as (out & E & Sr & Sc & Hnan & _); try lia.
    exists out. split; [exact E|]. split; [exact Sr|]. split; [exact Sc|].
    intros i j Hij. apply Hnan, Hb, Hij.
Qed.



(** The host kernel fails on the grids with fewer than two rows or
    fewer than two columns, where [np.gradient] raises ValueError, and on
    no other. *)
Lemma host_kernel_fails_exactly_below_2x2
  (d : ndarray F) (azimuth angle_altitude : F) :
  (nrows d < 2 \/ ncols d < 2 ->
   exists msg, _run_numpy d azimuth angle_altitude = Raise (ValueError msg)) /\
  (2 <= nrows d /\ 2 <= ncols d ->
   exists out,
     _run_numpy d azimuth angle_altitude = Ok out /\
     nrows out = nrows d /\ ncols out = ncols d).
Proof.
  split.
  - apply run_numpy_raises.
  - intros [Hr Hc].
    destruct (run_numpy_returns d azimuth angle_altitude Hr Hc) as [out E].
    exists out. split; [exact E|].
    destruct (run_numpy_cells _ _ _ _ E) as (Sr & Sc & _). auto.
Qed.

Lemma central_differ_only_at (d d' : ndarray F) (i j : nat) :
  differ_only_at d d' i j -> 0 < i -> 0 < j ->
  central0 d i j = central0 d' i j /\ central1 d i j = central1 d' i j.
Proof.
  intros (_ & _ & Hsame) Hi Hj. unfold central0, central1.
  rewrite (Hsame (i + 1) j), (Hsame (i - 1) j),
          (Hsame i (j + 1)), (Hsame i (j - 1)); auto;
    intros E; injection E; lia.
Qed.

End StructuralClaims.

Section StencilClaims.
Context {F : Type} `{FloatOps F}.

(** C10.  The centre of the stencil is not read.  For every grid and
    every interior cell (i, j), any two grids that differ at most at
    (i, j) give the same output at (i, j), on the host kernel and on the
    device kernel: both read only the four neighbours of the cell.  (A
    cell with a further ring of interior cells around it is interior.) *)
Theorem output_independent_of_centre_cell
  (d d' : ndarray F) (azimuth angle_altitude : F) (i j : nat) :
  differ_only_at d d' i j ->
  interior (nrows d) (ncols d) i j ->
  (exists out out',
     _run_numpy d azimuth angle_altitude = Ok out /\
     _run_numpy d' azimuth angle_altitude = Ok out' /\
     item out i j = item out' i j) /\
  (forall tpb empty empty', 0 < tpb ->
   exists out out',
     _run_cupy tpb empty d azimuth angle_altitude = Ok out /\
     _run_cupy tpb empty' d' azimuth angle_altitude = Ok out' /\
     item out i j = item out' i j).
Proof.
  intros Hd Hin.
  assert (Hin' : interior (nrows d') (ncols d') i j)
    by (destruct Hd as (<- & <- & _); exact Hin).
  destruct (central_differ_only_at d d' i j Hd) as [E0 E1];
    try (destruct Hin as [? ?]; lia).
  pose proof Hin as [Hi Hj]. pose proof Hin' as [Hi' Hj'].
  split.
  - destruct (run_numpy_returns d azimuth angle_altitude) as [out E]; try lia.
    destruct (run_numpy_returns d' azimuth angle_altitude) as [out' E']; try lia.
    exists out, out'. repeat split; auto.
    rewrite (run_numpy_interior _ _ _ _ _ _ E Hin),
            (run_numpy_interior _ _ _ _ _ _ E' Hin'), E0, E1.
    reflexivity.
  - intros tpb empty empty' Ht.
    destruct (run_cupy_cells tpb empty d azimuth angle_altitude)
      as (out & E & _ & _ & _ & Hcell); try lia.
    destruct (run_cupy_cells tpb empty' d' azimuth angle_altitude)
      as (out' & E' & _ & _ & _ & Hcell'); try lia.
    exists out, out'. repeat split; auto.
    rewrite (Hcell Ht i j Hin), (Hcell' Ht i j Hin'), E0, E1.
    reflexivity.
Qed.

End StencilClaims.

Section ValueClaims.
Local Open Scope R_scope.

(** C6, as amended.  No-data propagation, for not-a-number.  For every
    grid, every azimuth and altitude, and every interior cell one of whose
    four stencil neighbours is not-a-number, the host kernel returns and
    its output at that cell is not-a-number. *)
Theorem nan_in_stencil_propagates
  (d : ndarray Rext) (azimuth angle_altitude : Rext) (i j : nat) :
  interior (nrows d) (ncols d) i j ->
  item d (i - 1) j = RNaN \/ item d (i + 1) j = RNaN \/
  item d i (j - 1) = RNaN \/ item d i (j + 1) = RNaN ->
  exists out,
    _run_numpy d azimuth angle_altitude = Ok out /\
    item out i j = RNaN.
Proof.
  intros Hin Hnan. pose proof Hin as [Hi Hj].
  destruct (run_numpy_returns d azimuth angle_altitude) as [out E];
    try lia.
  exists out. split; [exact E|].
  rewrite (run_numpy_interior _ _ _ _ _ _ E Hin).
  destruct Hnan as [Hn | [Hn | [Hn | Hn]]].
  - rewrite (central0_nan d i j (or_introl Hn)). apply host_illum_nan_x.
  - rewrite (central0_nan d i j (or_intror Hn)). apply host_illum_nan_x.
  - rewrite (central1_nan d i j (or_introl Hn)). apply host_illum_nan_y.
  - rewrite (central1_nan d i j (or_intror Hn)). apply host_illum_nan_y.
Qed.

(** An infinite gradient along the rows gives a slope of zero and a
    finite illumination. *)
Lemma host_illum_inf_x (y az alt : R) :
  exists v, host_illum (RInf false) (RFin y) (RFin az) (RFin alt) = RFin v.
Proof.
  unfold host_illum.
  cbn [fadd fsub fmul fdiv fneg fsqrt fsin fcos fatan fatan2 fpi of_Q Rext_FloatOps].
  rewrite Q2R_1, Q2R_2, Q2R_180, Q2R_360.
  cbn [RextOps.mul RextOps.add RextOps.sub RextOps.neg RextOps.sqrt
       RextOps.atan RextOps.atan2 xorb negb].
  rewrite !div_fin by lra.
  cbn [RextOps.sub RextOps.sin RextOps.cos RextOps.mul RextOps.add].
  rewrite div_fin by lra. eexists. reflexivity.
Qed.

(** Against C6 as first stated (not-a-number or infinite): on the flat
    grid with plus infinity south of its centre (defaults for the
    angles), the stencil of the centre holds an infinite value and the
    host kernel's output at the centre is a number. *)
Lemma infinite_neighbour_gives_a_number :
  exists out,
    _run_numpy inf_south3 (of_Q 225) (of_Q 25) = Ok out /\
    interior (nrows inf_south3) (ncols inf_south3) 1 1 /\
    item inf_south3 (1 + 1) 1 = RInf false /\
    item out 1 1 <> RNaN.
Proof.
  destruct (run_numpy_returns inf_south3 (of_Q 225) (of_Q 25)) as [out E];
    try (simpl; lia).
  assert (Hin : interior (nrows inf_south3) (ncols inf_south3) 1 1)
    by (unfold interior; simpl; lia).
  exists out. split; [exact E|]. split; [exact Hin|]. split; [reflexivity|].
  rewrite (run_numpy_interior _ _ _ _ _ _ E Hin).
  unfold central0, central1. simpl item.
  cbn [fsub fdiv of_Q Rext_FloatOps RextOps.sub RextOps.div xorb].
  rewrite Q2R_2, (Rltb_false 2 0), (Reqb_false 2 0) by lra.
  destruct (host_illum_inf_x ((0 - 0) / 2) (Q2R 225) (Q2R 25)) as [v ->].
  discriminate.
Qed.

End ValueClaims.

Section QuarterTurn.
Local Open Scope R_scope.

(** *** The literal of the device kernel and PI / 2 *)












(** *** The store into a [float32] buffer *)



End QuarterTurn.

Section FormulaClaims.
Local Open Scope R_scope.






End FormulaClaims.

Section DispatchClaims.
Context {F : Type} `{FloatOps F}.

(** C5, as amended.  On a machine with an accelerator (numba finds a
    CUDA device and cupy is imported), every input whose data is a
    device-resident tiled array makes the dispatcher raise the
    unimplemented-combination failure (NotImplementedError).  On a
    machine where numba finds no device, or where cupy is imported, every
    input whose data is of an unrecognised kind makes it raise the
    unsupported-type failure (TypeError, "Unsupported Array Type" and the
    type).  In both cases no numeric routine has run and no result is
    returned. *)
Theorem dispatch_rejections
  (rt : runtime F) (agg : DataArray F) (azimuth angle_altitude : F)
  (name : option string) :
  (forall d,
     data agg = da_Array d -> is_cupy_backed d = true ->
     has_cuda rt = true -> cupy_imported rt = true ->
     hillshade rt agg azimuth angle_altitude name
     = ([], Raise (NotImplementedError "Not implemented."))) /\
  (forall t,
     data agg = other_type t ->
     has_cuda rt = false \/ cupy_imported rt = true ->
     hillshade rt agg azimuth angle_altitude name
     = ([], Raise (TypeError ("Unsupported Array Type: " ++ t)))).
Proof.
  split.
  - intros d Hd Hb Hc Hi. unfold hillshade, isinstance_cupy_ndarray.
    rewrite Hd, Hc, Hi, Hb. reflexivity.
  - intros t Ht Hrt. unfold hillshade, isinstance_cupy_ndarray. rewrite Ht.
    destruct Hrt as [-> | ->]; [|destruct (has_cuda rt)]; reflexivity.
Qed.

(** C8, as amended.  Where no accelerator is present, every input whose
    data is a device-resident array makes the operation fail before any
    kernel launch, and no numeric routine has run; the failure is the
    unsupported-type failure itself (TypeError, "Unsupported Array
    Type"), the one that an unrecognised kind of data gets. *)
Theorem device_data_without_accelerator
  (rt : runtime F) (agg : DataArray F) (azimuth angle_altitude : F)
  (name : option string) (a : ndarray F) :
  data agg = cupy_ndarray a ->
  has_cuda rt = false ->
  hillshade rt agg azimuth angle_altitude name
  = ([], Raise (TypeError
                  ("Unsupported Array Type: " ++ type_name_of (data agg)))).
Proof.
  intros Ha Hc. unfold hillshade. rewrite Ha, Hc. reflexivity.
Qed.

End DispatchClaims.

Section DispatchCounterexamples.

(** Against C5 as first stated (every machine): where numba finds no
    CUDA device, a device-resident tiled input is not rejected; it is
    handed to the tiled executor around the host kernel, which returns. *)
Lemma device_tiled_input_not_rejected_without_device :
  exists out,
    hillshade without_device (labelled (da_Array ramp3_device_tiled))
              (of_Q 225) (of_Q 25) (Some "hillshade"%string)
    = ([MapOverlapRun], Ok out).
Proof.
  unfold hillshade. cbn [data labelled has_cuda without_device].
  destruct (run_dask_numpy_cells ramp3_device_tiled (of_Q 225) (of_Q 25))
    as (out & -> & _); [split; reflexivity | simpl; lia | simpl; lia |].
  eexists. reflexivity.
Qed.

(** Against C8 as first stated (a failure of its own): without a
    device, a device-resident input and an input of an unrecognised kind
    fail alike, with the TypeError of the last branch of the dispatcher. *)
Lemma no_accelerator_failure_is_the_unsupported_type_failure :
  hillshade without_device (labelled (cupy_ndarray ramp3))
            (of_Q 225) (of_Q 25) (Some "hillshade"%string)
  = ([], Raise (TypeError "Unsupported Array Type: <class 'cupy.ndarray'>"))
  /\
  hillshade without_device (labelled (other_type "<class 'list'>"))
            (of_Q 225) (of_Q 25) (Some "hillshade"%string)
  = ([], Raise (TypeError "Unsupported Array Type: <class 'list'>")).
Proof. split; reflexivity. Qed.

(** C7.  On a grid of a single row the host kernel does not return the
    all-undefined output of the same shape: it fails with the ValueError
    of [np.gradient].  The device kernel, on the same grid, returns a grid
    of the same shape that is not-a-number everywhere. *)
Theorem single_row_fails_on_host_and_is_nan_on_device :
  nrows row3 = 1 /\ ncols row3 = 3 /\
  (exists msg,
     _run_numpy row3 (of_Q 225) (of_Q 25) = Raise (ValueError msg)) /\
  (exists out,
     _run_cupy 16 (fun _ _ => RFin 0) row3 (of_Q 225) (of_Q 25) = Ok out /\
     nrows out = 1 /\ ncols out = 3 /\
     forall i j, i < 1 -> j < 3 -> item out i j = RNaN).
Proof.
  split; [reflexivity|]. split; [reflexivity|]. split.
  - eexists. reflexivity.
  - destruct (run_cupy_cells 16 (fun _ _ => RFin 0) row3 (of_Q 225) (of_Q 25))
      as (out & E & Sr & Sc & Hnan & _); try (simpl; lia).
    exists out. split; [exact E|]. split; [exact Sr|]. split; [exact Sc|].
    intros i j Hi Hj. apply Hnan.
    replace i with 0 by lia. reflexivity.
Qed.

End DispatchCounterexamples.

Section ShapeAndDtypeClaims.
Context {F : Type} `{FloatOps F}.
Import DType.

(** C9, as amended.  For every host-resident grid of shape (R, C) with
    R, C >= 2 the host kernel's output has shape (R, C).  Its dtype is
    double precision when the input is double precision; in general it is
    the floating dtype of the input under the value-based promotion of
    NumPy 1, and the wider of double precision and the input's dtype under
    the promotion of NumPy 2. *)
Theorem host_output_shape_and_dtype
  (d : ndarray F) (azimuth angle_altitude : F) :
  2 <= nrows d -> 2 <= ncols d ->
  (exists out,
     _run_numpy d azimuth angle_altitude = Ok out /\
     nrows out = nrows d /\ ncols out = ncols d) /\
  (forall p, _run_numpy_dtype p float64 = float64) /\
  (forall t, _run_numpy_dtype ValueBased t = t) /\
  (forall t, _run_numpy_dtype NEP50 t = promote_types float64 t).
Proof.
  intros Hr Hc. split.
  - destruct (run_numpy_returns d azimuth angle_altitude Hr Hc) as [out E].
    exists out. split; [exact E|].
    destruct (run_numpy_cells _ _ _ _ E) as (Sr & Sc & _). auto.
  - repeat split.
    + intros []; reflexivity.
    + intros []; reflexivity.
    + intros []; reflexivity.
Qed.

End ShapeAndDtypeClaims.

(** Against C9 as first stated (double precision whatever the input):
    a single-precision grid gives a single-precision (4-byte) result
    under the promotion rules of NumPy 1, and an extended-precision grid
    gives an extended-precision result under either set of rules. *)
Lemma single_precision_in_single_precision_out :
  DType._run_numpy_dtype DType.ValueBased DType.float32 = DType.float32 /\
  DType.itemsize DType.float32 = 4 /\
  DType._run_numpy_dtype DType.ValueBased DType.longdouble = DType.longdouble /\
  DType._run_numpy_dtype DType.NEP50 DType.longdouble = DType.longdouble.
Proof. repeat split. Qed.

(** * The claims on the sample inputs *)

Section Witnesses.

Lemma ramp3_peak_differs_at_centre : differ_only_at ramp3 ramp3_peak 1 1.
Proof.
  repeat split. intros i j Hij. unfold ramp3_peak, setitem. simpl.
  destruct (i =? 1) eqn:Ei; destruct (j =? 1) eqn:Ej; simpl; try reflexivity.
  apply Nat.eqb_eq in Ei, Ej. subst. contradiction Hij. reflexivity.
Qed.

Lemma ramp3_tiles_agree_with_whole :
  exists tiled single,
    _run_dask_numpy ramp3_tiled (of_Q 225) (of_Q 25) = Ok tiled /\
    _run_numpy (whole ramp3_tiled) (of_Q 225) (of_Q 25) = Ok single /\
    nrows (whole tiled) = nrows single /\
    ncols (whole tiled) = ncols single /\
    forall i j,
      interior (nrows (whole ramp3_tiled)) (ncols (whole ramp3_tiled)) i j ->
      item (whole tiled) i j = item single i j.
Proof.
  apply (tiled_interior_equals_single_buffer ramp3_tiled (of_Q 225) (of_Q 25));
    [split; reflexivity | simpl; lia | simpl; lia].
Defined.

Lemma ramp3_borders_are_nan :
  (exists out,
     _run_numpy ramp3 (of_Q 225) (of_Q 25) = Ok out /\
     nrows out = nrows ramp3 /\ ncols out = ncols ramp3 /\
     forall i j,
       i = 0 \/ i = nrows ramp3 - 1 \/ j = 0 \/ j = ncols ramp3 - 1 ->
       item out i j = nan) /\
  (forall tpb empty,
   exists out,
     _run_cupy tpb empty ramp3 (of_Q 225) (of_Q 25) = Ok out /\
     nrows out = nrows ramp3 /\ ncols out = ncols ramp3 /\
     forall i j,
       i = 0 \/ i = nrows ramp3 - 1 \/ j = 0 \/ j = ncols ramp3 - 1 ->
       item out i j = nan).
Proof.
  apply (border_is_nan_on_both_kernels ramp3 (of_Q 225) (of_Q 25));
    simpl; lia.
Defined.

Lemma ramp3_centre_is_not_read :
  (exists out out',
     _run_numpy ramp3 (of_Q 225) (of_Q 25) = Ok out /\
     _run_numpy ramp3_peak (of_Q 225) (of_Q 25) = Ok out' /\
     item out 1 1 = item out' 1 1) /\
  (forall tpb empty empty', 0 < tpb ->
   exists out out',
     _run_cupy tpb empty ramp3 (of_Q 225) (of_Q 25) = Ok out /\
     _run_cupy tpb empty' ramp3_peak (of_Q 225) (of_Q 25) = Ok out' /\
     item out 1 1 = item out' 1 1).
Proof.
  apply (output_independent_of_centre_cell ramp3 ramp3_peak
           (of_Q 225) (of_Q 25) 1 1);
    [exact ramp3_peak_differs_at_centre | unfold interior; simpl; lia].
Defined.




Lemma nan_south3_centre_is_nan :
  exists out,
    _run_numpy nan_south3 (of_Q 225) (of_Q 25) = Ok out /\
    item out 1 1 = RNaN.
Proof.
  apply (nan_in_stencil_propagates nan_south3 (of_Q 225) (of_Q 25) 1 1);
    [unfold interior; simpl; lia | right; left; reflexivity].
Defined.

Lemma sample_inputs_rejected_with_device :
  hillshade with_device (labelled (da_Array ramp3_device_tiled))
            (of_Q 225) (of_Q 25) (Some "hillshade"%string)
  = ([], Raise (NotImplementedError "Not implemented."))
  /\
  hillshade with_device (labelled (other_type "<class 'list'>"))
            (of_Q 225) (of_Q 25) (Some "hillshade"%string)
  = ([], Raise (TypeError ("Unsupported Array Type: " ++ "<class 'list'>"))).
Proof.
  split.
  - apply (proj1 (dispatch_rejections with_device
                    (labelled (da_Array ramp3_device_tiled))
                    (of_Q 225) (of_Q 25) (Some "hillshade"%string))
             ramp3_device_tiled); reflexivity.
  - apply (proj2 (dispatch_rejections with_device
                    (labelled (other_type "<class 'list'>"))
                    (of_Q 225) (of_Q 25) (Some "hillshade"%string))
             "<class 'list'>"%string); [reflexivity | right; reflexivity].
Defined.

Lemma ramp3_on_device_without_accelerator :
  hillshade without_device (labelled (cupy_ndarray ramp3))
            (of_Q 225) (of_Q 25) (Some "hillshade"%string)
  = ([], Raise (TypeError
                  ("Unsupported Array Type: "
                   ++ type_name_of (data (labelled (cupy_ndarray ramp3)))))).
Proof.
  apply (device_data_without_accelerator without_device
           (labelled (cupy_ndarray ramp3)) (of_Q 225) (of_Q 25)
           (Some "hillshade"%string) ramp3); reflexivity.
Defined.

Lemma ramp3_shape_and_double_precision :
  (exists out,
     _run_numpy ramp3 (of_Q 225) (of_Q 25) = Ok out /\
     nrows out = nrows ramp3 /\ ncols out = ncols ramp3) /\
  (forall p, DType._run_numpy_dtype p DType.float64 = DType.float64) /\
  (forall t, DType._run_numpy_dtype DType.ValueBased t = t) /\
  (forall t, DType._run_numpy_dtype DType.NEP50 t
             = DType.promote_types DType.float64 t).
Proof.
  apply (host_output_shape_and_dtype ramp3 (of_Q 225) (of_Q 25)); simpl; lia.
Defined.

End Witnesses.

(** * Further properties of the kernels *)

Section KernelStructure.
Context {F : Type} `{FloatOps F}.

Lemma in_shape_cases (r c i j : nat) :
  i < r -> j < c ->
  on_border r c i j = true \/ interior r c i j.
Proof.
  intros Hi Hj. unfold on_border, interior.
  destruct (i =? 0) eqn:A; [auto|].
  destruct (i =? r - 1) eqn:B; [auto|].
  destruct (j =? 0) eqn:C; [auto|].
  destruct (j =? c - 1) eqn:D; [auto|].
  apply Nat.eqb_neq in A, B, C, D. right. lia.
Qed.

Lemma central_same_neighbours (d d' : ndarray F) (i j : nat) :
  same_neighbours d d' i j ->
  central0 d i j = central0 d' i j /\ central1 d i j = central1 d' i j.
Proof.
  intros (_ & _ & N & S & W & E). unfold central0, central1.
  rewrite N, S, W, E. auto.
Qed.

(** X1.  The value of an interior cell is decided by the four cells
    next to it: two grids of one shape that agree on the row neighbours
    and the column neighbours of an interior cell (and differ anywhere
    else, diagonal neighbours and the cell itself included) get the same
    output at that cell, from the host kernel and from the device
    kernel. *)
Theorem output_decided_by_four_neighbours
  (d d' : ndarray F) (azimuth angle_altitude : F) (i j : nat) :
  same_neighbours d d' i j ->
  interior (nrows d) (ncols d) i j ->
  (exists out out',
     _run_numpy d azimuth angle_altitude = Ok out /\
     _run_numpy d' azimuth angle_altitude = Ok out' /\
     item out i j = item out' i j) /\
  (forall tpb empty empty', 0 < tpb ->
   exists out out',
     _run_cupy tpb empty d azimuth angle_altitude = Ok out /\
     _run_cupy tpb empty' d' azimuth angle_altitude = Ok out' /\
     item out i j = item out' i j).
Proof.
  intros Hd Hin.
  assert (Hin' : interior (nrows d') (ncols d') i j)
    by (destruct Hd as (<- & <- & _); exact Hin).
  destruct (central_same_neighbours d d' i j Hd) as [E0 E1].
  pose proof Hin as [Hi Hj]. pose proof Hin' as [Hi' Hj'].
  split.
  - destruct (run_numpy_returns d azimuth angle_altitude) as [out E]; try lia.
    destruct (run_numpy_returns d' azimuth angle_altitude) as [out' E']; try lia.
    exists out, out'. repeat split; auto.
    rewrite (run_numpy_interior _ _ _ _ _ _ E Hin),
            (run_numpy_interior _ _ _ _ _ _ E' Hin'), E0, E1.
    reflexivity.
  - intros tpb empty empty' Ht.
    destruct (run_cupy_cells tpb empty d azimuth angle_altitude)
      as (out & E & _ & _ & _ & Hcell); try lia.
    destruct (run_cupy_cells tpb empty' d' azimuth angle_altitude)
      as (out' & E' & _ & _ & _ & Hcell'); try lia.
    exists out, out'. repeat split; auto.
    rewrite (Hcell Ht i j Hin), (Hcell' Ht i j Hin'), E0, E1.
    reflexivity.
Qed.

(** X2.  A grid of exactly two rows, or of exactly two columns, has no
    interior: the host kernel returns, and every cell of its output is
    not-a-number. *)
Theorem two_rows_or_two_columns_give_all_nan
  (d : ndarray F) (azimuth angle_altitude : F) :
  2 <= nrows d -> 2 <= ncols d ->
  nrows d = 2 \/ ncols d = 2 ->
  exists out,
    _run_numpy d azimuth angle_altitude = Ok out /\
    nrows out = nrows d /\ ncols out = ncols d /\
    forall i j, i < nrows d -> j < ncols d -> item out i j = nan.
Proof.
  intros Hr Hc Htwo.
  destruct (run_numpy_returns d azimuth angle_altitude Hr Hc) as [out E].
  destruct (run_numpy_cells _ _ _ _ E) as (Sr & Sc & Hcell).
  exists out. repeat split; auto. intros i j Hi Hj. rewrite Hcell.
  destruct (in_shape_cases _ _ i j Hi Hj) as [-> | [Hii Hjj]];
    [reflexivity | lia].
Qed.

(** X3.  What [cupy.empty] finds in the memory it allocates never shows
    in the result: with a positive block side, two runs of the device
    kernel on the same grid give the same value in every cell, whatever
    the two buffers held. *)
Theorem device_output_ignores_allocated_memory
  (tpb : nat) (empty empty' : nat -> nat -> F)
  (d : ndarray F) (azimuth angle_altitude : F) :
  0 < tpb -> 1 <= nrows d -> 1 <= ncols d ->
  exists out out',
    _run_cupy tpb empty d azimuth angle_altitude = Ok out /\
    _run_cupy tpb empty' d azimuth angle_altitude = Ok out' /\
    forall i j, i < nrows d -> j < ncols d -> item out i j = item out' i j.
Proof.
  intros Ht Hr Hc.
  destruct (run_cupy_cells tpb empty d azimuth angle_altitude Hr Hc)
    as (out & E & _ & _ & Hnan & Hcell).
  destruct (run_cupy_cells tpb empty' d azimuth angle_altitude Hr Hc)
    as (out' & E' & _ & _ & Hnan' & Hcell').
  exists out, out'. repeat split; auto. intros i j Hi Hj.
  destruct (in_shape_cases _ _ i j Hi Hj) as [Hb | Hin].
  - rewrite (Hnan i j Hb), (Hnan' i j Hb). reflexivity.
  - rewrite (Hcell Ht i j Hin), (Hcell' Ht i j Hin). reflexivity.
Qed.

(** A cell no thread of the list is in charge of keeps its value. *)
Lemma threads_unlisted (d : ndarray F) (s c a : F)
  (l : list (nat * nat)) (out : ndarray F) (i j : nat) :
  ~ In (i, j) l ->
  item (run_threads d s c a l out) i j = item out i j.
Proof.
  unfold run_threads. revert out.
  induction l as [|t l IH]; intros out Hn; simpl; [reflexivity|].
  rewrite IH by (intros Hl; apply Hn; right; exact Hl).
  rewrite (thread_item d s c a out t i j).
  destruct (i =? fst t) eqn:Ei; [|rewrite !andb_false_r; reflexivity].
  destruct (j =? snd t) eqn:Ej; [|rewrite !andb_false_r; reflexivity].
  apply Nat.eqb_eq in Ei, Ej. exfalso. apply Hn. left.
  destruct t; simpl in *; subst; reflexivity.
Qed.

(** X4.  The threads of the device kernel do not interfere: run one
    after the other in any order, they leave the same value in every
    cell of the output buffer as in the order of the launch. *)
Theorem thread_order_is_irrelevant
  (d : ndarray F) (s c a : F) (griddim blockdim : nat * nat)
  (threads : list (nat * nat)) (output : ndarray F) :
  Permutation (cuda_grid griddim blockdim) threads ->
  forall i j,
    item (run_threads d s c a threads output) i j
    = item (launch (fun out i j => _gpu_calc_numba d out s c a i j)
                   griddim blockdim output) i j.
Proof.
  intros Hp i j.
  change (launch (fun out i j => _gpu_calc_numba d out s c a i j)
                 griddim blockdim output)
    with (run_threads d s c a (cuda_grid griddim blockdim) output).
  set (l := cuda_grid griddim blockdim) in *.
  destruct ((0 <? i) && (i <? nrows d - 1) && (0 <? j) && (j <? ncols d - 1))
    eqn:G.
  - apply (interior_guard d s c a) in G.
    assert (Hdec : forall p q : nat * nat, {p = q} + {p <> q})
      by (decide equality; apply Nat.eq_dec).
    destruct (in_dec Hdec (i, j) l) as [Hl | Hl].
    + unfold run_threads.
      rewrite (threads_inside d s c a l output i j G Hl).
      apply (threads_inside d s c a threads output i j G).
      apply (Permutation_in _ Hp Hl).
    + rewrite (threads_unlisted d s c a l output i j Hl).
      apply threads_unlisted. intros Ht. apply Hl.
      apply (Permutation_in _ (Permutation_sym Hp) Ht).
  - assert (Hn : ~ interior (nrows d) (ncols d) i j).
    { intros Hin. apply (interior_guard d s c a) in Hin. congruence. }
    unfold run_threads.
    rewrite (threads_outside d s c a l output i j Hn).
    apply (threads_outside d s c a threads output i j Hn).
Qed.

(** X5.  The tiled executor returns on every grid that has a cell, with
    the shape and the chunks of its input, and how the grid is cut into
    chunks does not show in the result: two dask arrays over the same
    grid get the same value in every cell, seams included. *)
Theorem chunking_is_irrelevant
  (x x' : dask_array F) (azimuth angle_altitude : F) :
  whole x' = whole x ->
  well_chunked x -> well_chunked x' ->
  1 <= nrows (whole x) -> 1 <= ncols (whole x) ->
  exists out out',
    _run_dask_numpy x azimuth angle_altitude = Ok out /\
    _run_dask_numpy x' azimuth angle_altitude = Ok out' /\
    nrows (whole out) = nrows (whole x) /\
    ncols (whole out) = ncols (whole x) /\
    chunks0 out = chunks0 x /\ chunks1 out = chunks1 x /\
    forall i j, i < nrows (whole x) -> j < ncols (whole x) ->
      item (whole out) i j = item (whole out') i j.
Proof.
  intros Hw Hc Hc' Hr Hcol.
  destruct (run_dask_numpy_cells x azimuth angle_altitude Hc Hr Hcol)
    as (out & E & Sr & Sc & C0 & C1 & Hcell).
  destruct (run_dask_numpy_cells x' azimuth angle_altitude Hc')
    as (out' & E' & _ & _ & _ & _ & Hcell'); try (rewrite Hw; assumption).
  exists out, out'. repeat split; auto. intros i j Hi Hj.
  rewrite Hcell by assumption.
  rewrite Hcell' by (rewrite Hw; assumption).
  rewrite Hw. reflexivity.
Qed.

End KernelStructure.

(** * Further properties of the values *)

Section KernelValues.
Local Open Scope R_scope.

(** *** Not-a-number on the device *)

Lemma gpu_illum_nan_x (h y s c a : Rext) : gpu_illum h RNaN y s c a = RNaN.
Proof.
  unfold gpu_illum.
  cbn [fadd fsub fmul fdiv fneg fsqrt fsin fcos fatan fatan2 fpi of_Q Rext_FloatOps].
  cbn [RextOps.mul RextOps.add RextOps.sqrt RextOps.atan].
  rewrite sub_nan_r. cbn [RextOps.sin RextOps.cos].
  rewrite !mul_nan_r. reflexivity.
Qed.

Lemma gpu_illum_nan_y (h x s c a : Rext) : gpu_illum h x RNaN s c a = RNaN.
Proof.
  unfold gpu_illum.
  cbn [fadd fsub fmul fdiv fneg fsqrt fsin fcos fatan fatan2 fpi of_Q Rext_FloatOps].
  cbn [RextOps.mul]. rewrite add_nan_r.
  cbn [RextOps.sqrt RextOps.atan].
  rewrite sub_nan_r. cbn [RextOps.sin RextOps.cos].
  rewrite !mul_nan_r. reflexivity.
Qed.

(** X8.  No-data propagation on the device: for every grid, every
    azimuth and altitude, and every interior cell one of whose four
    stencil neighbours is not-a-number, the device kernel's output at
    that cell is not-a-number. *)
Theorem device_nan_in_stencil_propagates
  (tpb : nat) (empty : nat -> nat -> Rext)
  (d : ndarray Rext) (azimuth angle_altitude : Rext) (i j : nat) :
  (0 < tpb)%nat ->
  interior (nrows d) (ncols d) i j ->
  item d (i - 1) j = RNaN \/ item d (i + 1) j = RNaN \/
  item d i (j - 1) = RNaN \/ item d i (j + 1) = RNaN ->
  exists out,
    _run_cupy tpb empty d azimuth angle_altitude = Ok out /\
    item out i j = RNaN.
Proof.
  intros Ht Hin Hnan. pose proof Hin as [Hi Hj].
  destruct (run_cupy_cells tpb empty d azimuth angle_altitude)
    as (out & E & _ & _ & _ & Hcell); try lia.
  exists out. split; [exact E|].
  rewrite (Hcell Ht i j Hin).
  destruct Hnan as [Hn | [Hn | [Hn | Hn]]].
  - rewrite (central0_nan d i j (or_introl Hn)), gpu_illum_nan_x. reflexivity.
  - rewrite (central0_nan d i j (or_intror Hn)), gpu_illum_nan_x. reflexivity.
  - rewrite (central1_nan d i j (or_introl Hn)), gpu_illum_nan_y. reflexivity.
  - rewrite (central1_nan d i j (or_intror Hn)), gpu_illum_nan_y. reflexivity.
Qed.

End KernelValues.

Section TiledValues.

Lemma padded_central_border (d : ndarray Rext) (i j : nat) :
  (i < nrows d)%nat -> (j < ncols d)%nat ->
  on_border (nrows d) (ncols d) i j = true ->
  padded_central0 d i j = RNaN \/ padded_central1 d i j = RNaN.
Proof.
  intros Hi Hj Hb. unfold on_border in Hb.
  rewrite !orb_true_iff, !Nat.eqb_eq in Hb.
  unfold padded_central0, padded_central1.
  cbn [fsub fdiv of_Q Rext_FloatOps].
  destruct Hb as [[[Hb | Hb] | Hb] | Hb].
  - left. rewrite (pad_nan_outside d i (j + 1)) by lia.
    rewrite sub_nan_r. reflexivity.
  - left. rewrite (pad_nan_outside d (i + 2) (j + 1)) by lia. reflexivity.
  - right. rewrite (pad_nan_outside d (i + 1) j) by lia.
    rewrite sub_nan_r. reflexivity.
  - right. rewrite (pad_nan_outside d (i + 1) (j + 2)) by lia. reflexivity.
Qed.

(** The tiled executor gives not-a-number on the outermost ring of the
    whole grid, through the not-a-number it pads the grid with. *)
Lemma tiled_border_is_nan (x : dask_array Rext) (az alt : Rext)
  (out : dask_array Rext) (i j : nat) :
  (forall i j, (i < nrows (whole x))%nat -> (j < ncols (whole x))%nat ->
     item (whole out) i j =
     host_illum (padded_central0 (whole x) i j)
                (padded_central1 (whole x) i j) az alt) ->
  (i < nrows (whole x))%nat -> (j < ncols (whole x))%nat ->
  on_border (nrows (whole x)) (ncols (whole x)) i j = true ->
  item (whole out) i j = RNaN.
Proof.
  intros Hcell Hi Hj Hb. rewrite Hcell by assumption.
  destruct (padded_central_border (whole x) i j Hi Hj Hb) as [-> | ->].
  - apply host_illum_nan_x.
  - apply host_illum_nan_y.
Qed.

(** X11.  Tiled and single-buffer execution give the same grid, cell for
    cell, outermost ring included: for every host-resident grid of at
    least 2 by 2 with its chunks, every cell of the result of the tiled
    executor equals the same cell of the host kernel's result on the
    whole grid; on the outermost ring both are not-a-number. *)
Theorem tiled_equals_single_buffer_everywhere
  (x : dask_array Rext) (azimuth angle_altitude : Rext) :
  well_chunked x ->
  (2 <= nrows (whole x))%nat -> (2 <= ncols (whole x))%nat ->
  exists tiled single,
    _run_dask_numpy x azimuth angle_altitude = Ok tiled /\
    _run_numpy (whole x) azimuth angle_altitude = Ok single /\
    (forall i j,
       (i < nrows (whole x))%nat -> (j < ncols (whole x))%nat ->
       item (whole tiled) i j = item single i j) /\
    (forall i j,
       (i < nrows (whole x))%nat -> (j < ncols (whole x))%nat ->
       on_border (nrows (whole x)) (ncols (whole x)) i j = true ->
       item (whole tiled) i j = RNaN).
Proof.
  intros Hw Hr Hc.
  destruct (run_dask_numpy_cells x azimuth angle_altitude Hw)
    as (tiled & Et & _ & _ & _ & _ & Tcell); try lia.
  destruct (run_numpy_returns (whole x) azimuth angle_altitude Hr Hc)
    as [single Es].
  exists tiled, single. split; [exact Et|]. split; [exact Es|]. split.
  - intros i j Hi Hj.
    destruct (in_shape_cases _ _ i j Hi Hj) as [Hb | Hin].
    + rewrite (tiled_border_is_nan x _ _ tiled i j Tcell Hi Hj Hb).
      destruct (run_numpy_cells _ _ _ _ Es) as (_ & _ & Hcell).
      rewrite Hcell, Hb. reflexivity.
    + rewrite (run_numpy_interior _ _ _ _ _ _ Es Hin).
      destruct Hin as [Hii Hjj].
      rewrite Tcell by lia.
      rewrite padded_central0_interior, padded_central1_interior by lia.
      reflexivity.
  - intros i j Hi Hj Hb.
    apply (tiled_border_is_nan x _ _ tiled i j Tcell Hi Hj Hb).
Qed.

(** X12.  On a grid of a single row, or of a single column, the two
    host paths part: the host kernel fails with the ValueError of
    [np.gradient], while the tiled executor, whose blocks carry their
    halo, returns a grid of the same shape that is not-a-number
    everywhere. *)
Theorem thin_grid_fails_direct_and_is_nan_tiled
  (x : dask_array Rext) (azimuth angle_altitude : Rext) :
  well_chunked x ->
  (1 <= nrows (whole x))%nat -> (1 <= ncols (whole x))%nat ->
  nrows (whole x) = 1%nat \/ ncols (whole x) = 1%nat ->
  (exists msg,
     _run_numpy (whole x) azimuth angle_altitude = Raise (ValueError msg)) /\
  (exists tiled,
     _run_dask_numpy x azimuth angle_altitude = Ok tiled /\
     nrows (whole tiled) = nrows (whole x) /\
     ncols (whole tiled) = ncols (whole x) /\
     forall i j,
       (i < nrows (whole x))%nat -> (j < ncols (whole x))%nat ->
       item (whole tiled) i j = RNaN).
Proof.
  intros Hw Hr Hc Hthin. split.
  - apply run_numpy_raises. lia.
  - destruct (run_dask_numpy_cells x azimuth angle_altitude Hw Hr Hc)
      as (tiled & Et & Sr & Sc & _ & _ & Tcell).
    exists tiled. repeat split; auto. intros i j Hi Hj.
    apply (tiled_border_is_nan x _ _ tiled i j Tcell Hi Hj).
    destruct (in_shape_cases _ _ i j Hi Hj) as [Hb | [Hii Hjj]];
      [exact Hb | lia].
Qed.

End TiledValues.

(** * Further properties of the dispatcher *)

Section DispatcherFacts.
Context {F : Type} `{FloatOps F}.

Lemma run_dask_numpy_layout (x out : dask_array F) (az alt : F) :
  _run_dask_numpy x az alt = Ok out ->
  chunks0 out = chunks0 x /\ chunks1 out = chunks1 x /\
  cupy_backed out = false.
Proof.
  unfold _run_dask_numpy, map_overlap.
  destruct (mapM _ (chunk_spans 0 (chunks0 x))) as [rows|e]; simpl;
    [|discriminate].
  intros E. injection E as <-. simpl. auto.
Qed.

Lemma bind_Ok {A B : Type} (m : outcome A) (k : A -> outcome B) (b : B) :
  bind m k = Ok b -> exists a, m = Ok a /\ k a = Ok b.
Proof. destruct m as [a|e]; simpl; [eauto|discriminate]. Qed.

(** X13.  What the dispatcher returns is labelled like its input: when
    [hillshade] returns a DataArray, that one has the name the caller
    gave and the coordinates, dimensions and attributes of the input,
    and its data is of the kind of the input's data: numpy for numpy,
    cupy for cupy, and for dask a dask array with the same chunks,
    declared with a numpy meta whatever the input's blocks were. *)
Theorem dispatcher_keeps_labels_and_kind
  (rt : runtime F) (agg out : DataArray F) (azimuth angle_altitude : F)
  (new_name : option string) :
  snd (hillshade rt agg azimuth angle_altitude new_name) = Ok out ->
  name out = new_name /\
  coords out = coords agg /\ dims out = dims agg /\ attrs out = attrs agg /\
  same_kind (data agg) (data out).
Proof.
  unfold hillshade, isinstance_cupy_ndarray, _run_dask_cupy.
  destruct (data agg) as [a | a | x | t] eqn:D;
    destruct (has_cuda rt); destruct (cupy_imported rt);
    try destruct (is_cupy_backed x);
    cbn [snd bind]; try discriminate;
    intros E; apply bind_Ok in E as (o & Eo & E);
    injection E as <-; cbn [name coords dims attrs data same_kind];
    repeat split; auto;
    apply (run_dask_numpy_layout _ _ _ _ Eo).
Qed.

(** X14.  When the dispatcher returns and when it fails.  On a usable
    input (a numpy grid of at least 2 by 2, a cupy grid or a chunked grid
    with at least one cell), [hillshade] returns a DataArray in these
    cases and in no other: the data is a numpy array; the data is a cupy
    array, numba finds a device and cupy is imported; the data is a dask
    array and either numba finds no device, or cupy is imported and the
    blocks are host-resident. *)
Theorem hillshade_returns_exactly_when
  (rt : runtime F) (agg : DataArray F) (azimuth angle_altitude : F)
  (name : option string) :
  usable (data agg) ->
  ((exists out, snd (hillshade rt agg azimuth angle_altitude name) = Ok out)
   <->
   match data agg with
   | np_ndarray _ => True
   | cupy_ndarray _ => has_cuda rt = true /\ cupy_imported rt = true
   | da_Array x =>
       has_cuda rt = false \/
       (cupy_imported rt = true /\ is_cupy_backed x = false)
   | other_type _ => False
   end).
Proof.
  unfold hillshade, isinstance_cupy_ndarray, _run_dask_cupy.
  destruct (data agg) as [a | a | x | t] eqn:D; cbn [usable].
  - intros [Hr Hc].
    destruct (run_numpy_returns a azimuth angle_altitude Hr Hc) as [o ->].
    cbn [snd bind]. split; eauto.
  - intros [Hr Hc].
    destruct (run_cupy_cells (threads_per_block rt) (uninitialised rt)
                a azimuth angle_altitude Hr Hc) as (o & -> & _).
    destruct (has_cuda rt); destruct (cupy_imported rt); cbn [snd bind];
      split; try (intros [? ?]; discriminate); eauto;
      intros [? ?]; discriminate.
  - intros (Hw & Hr & Hc).
    destruct (run_dask_numpy_cells x azimuth angle_altitude Hw Hr Hc)
      as (o & -> & _).
    destruct (has_cuda rt); destruct (cupy_imported rt);
      destruct (is_cupy_backed x); cbn [snd bind];
      split; eauto;
      try (intros [? ?]; discriminate);
      intros [? | [? ?]]; discriminate.
  - intros _.
    destruct (has_cuda rt); destruct (cupy_imported rt); cbn [snd];
      split; try contradiction; intros [? ?]; discriminate.
Qed.

(** X15.  Where numba finds a device and cupy could not be imported,
    the stand-in [cupy.ndarray = False] reaches [isinstance]: every input
    whose data is not a numpy array, a host-resident dask array included,
    fails with the TypeError of [isinstance], and no numeric routine has
    run. *)
Theorem device_without_cupy_rejects_all_but_numpy
  (rt : runtime F) (agg : DataArray F) (azimuth angle_altitude : F)
  (name : option string) :
  has_cuda rt = true -> cupy_imported rt = false ->
  (forall a, data agg <> np_ndarray a) ->
  hillshade rt agg azimuth angle_altitude name
  = ([], Raise (TypeError
       "isinstance() arg 2 must be a type, a tuple of types, or a union")).
Proof.
  intros Hc Hi Hn. unfold hillshade, isinstance_cupy_ndarray.
  rewrite Hc, Hi.
  destruct (data agg) as [a | a | x | t]; [destruct (Hn a eq_refl)| | |];
    reflexivity.
Qed.

End DispatcherFacts.

Section EndToEnd.

(** X16.  Chunked or not, the same illumination: where numba finds no
    device, or cupy is imported, [hillshade] on a host-resident dask
    array and [hillshade] on the numpy array it tiles (at least 2 by 2)
    both return, the one a dask array and the other a numpy array, and
    every cell of the one equals the same cell of the other. *)
Theorem hillshade_same_whether_chunked_or_not
  (rt : runtime Rext) (agg agg' : DataArray Rext) (x : dask_array Rext)
  (azimuth angle_altitude : Rext) (name : option string) :
  data agg = da_Array x -> data agg' = np_ndarray (whole x) ->
  is_cupy_backed x = false ->
  has_cuda rt = false \/ cupy_imported rt = true ->
  well_chunked x -> 2 <= nrows (whole x) -> 2 <= ncols (whole x) ->
  exists out out' tiled single,
    snd (hillshade rt agg azimuth angle_altitude name) = Ok out /\
    snd (hillshade rt agg' azimuth angle_altitude name) = Ok out' /\
    data out = da_Array tiled /\ data out' = np_ndarray single /\
    forall i j, i < nrows (whole x) -> j < ncols (whole x) ->
      item (whole tiled) i j = item single i j.
Proof.
  intros D D' Hb Hrt Hw Hr Hc.
  destruct (run_dask_numpy_cells x azimuth angle_altitude Hw)
    as (tiled & Et & _ & _ & _ & _ & Tcell); try lia.
  destruct (run_numpy_returns (whole x) azimuth angle_altitude Hr Hc)
    as [single Es].
  eexists. eexists. exists tiled, single.
  unfold hillshade, isinstance_cupy_ndarray. rewrite D, D', Hb, Et, Es.
  split.
  { destruct Hrt as [-> | ->]; [|destruct (has_cuda rt)];
      cbn [snd bind]; reflexivity. }
  split; [cbn [snd bind]; reflexivity|].
  split; [reflexivity|]. split; [reflexivity|].
  intros i j Hi Hj.
  destruct (in_shape_cases _ _ i j Hi Hj) as [Hbd | Hin].
  - rewrite (tiled_border_is_nan x _ _ tiled i j Tcell Hi Hj Hbd).
    destruct (run_numpy_cells _ _ _ _ Es) as (_ & _ & Hcell).
    rewrite Hcell, Hbd. reflexivity.
  - rewrite (run_numpy_interior _ _ _ _ _ _ Es Hin).
    destruct Hin as [Hii Hjj].
    rewrite Tcell by lia.
    rewrite padded_central0_interior, padded_central1_interior by lia.
    reflexivity.
Qed.

End EndToEnd.

(** * The further properties on the sample inputs *)

Section MoreWitnesses.
Local Open Scope R_scope.

Lemma ramp3_centre_ignores_corner :
  (exists out out',
     _run_numpy ramp3 (of_Q 225) (of_Q 25) = Ok out /\
     _run_numpy ramp3_corner (of_Q 225) (of_Q 25) = Ok out' /\
     item out 1 1 = item out' 1 1) /\
  (forall tpb empty empty', (0 < tpb)%nat ->
   exists out out',
     _run_cupy tpb empty ramp3 (of_Q 225) (of_Q 25) = Ok out /\
     _run_cupy tpb empty' ramp3_corner (of_Q 225) (of_Q 25) = Ok out' /\
     item out 1 1 = item out' 1 1).
Proof.
  apply (output_decided_by_four_neighbours ramp3 ramp3_corner
           (of_Q 225) (of_Q 25) 1 1);
    [repeat split | unfold interior; simpl; lia].
Defined.

Lemma two_rows_all_nan :
  exists out,
    _run_numpy two_rows (of_Q 225) (of_Q 25) = Ok out /\
    nrows out = nrows two_rows /\ ncols out = ncols two_rows /\
    forall i j, (i < nrows two_rows)%nat -> (j < ncols two_rows)%nat ->
      item out i j = nan.
Proof.
  apply (two_rows_or_two_columns_give_all_nan two_rows (of_Q 225) (of_Q 25));
    [simpl; lia | simpl; lia | left; reflexivity].
Defined.

Lemma ramp3_device_ignores_memory :
  exists out out',
    _run_cupy 16 (fun _ _ => RFin 0) ramp3 (of_Q 225) (of_Q 25) = Ok out /\
    _run_cupy 16 (fun _ _ => RInf true) ramp3 (of_Q 225) (of_Q 25) = Ok out' /\
    forall i j, (i < nrows ramp3)%nat -> (j < ncols ramp3)%nat ->
      item out i j = item out' i j.
Proof.
  apply (device_output_ignores_allocated_memory 16
           (fun _ _ => RFin 0) (fun _ _ => RInf true) ramp3
           (of_Q 225) (of_Q 25)); simpl; lia.
Defined.

Lemma sixteen_threads_reversed :
  Permutation (cuda_grid (1, 1)%nat (4, 4)%nat) (rev block4) /\
  (forall i j,
     item (run_threads ramp4 (RFin 0) (RFin 1) (RFin 0)
             (rev block4) zeros4) i j
     = item (launch (fun out i j =>
                       _gpu_calc_numba ramp4 out (RFin 0) (RFin 1) (RFin 0) i j)
                    (1, 1)%nat (4, 4)%nat zeros4) i j) /\
  interior (nrows ramp4) (ncols ramp4) 1 1 /\
  interior (nrows ramp4) (ncols ramp4) 1 2 /\
  interior (nrows ramp4) (ncols ramp4) 2 1 /\
  interior (nrows ramp4) (ncols ramp4) 2 2.
Proof.
  split; [exact (Permutation_rev block4)|].
  split; [|unfold interior; simpl; lia].
  apply (thread_order_is_irrelevant ramp4 (RFin 0) (RFin 1) (RFin 0)
           (1, 1)%nat (4, 4)%nat (rev block4) zeros4).
  exact (Permutation_rev block4).
Defined.

Lemma ramp3_chunked_two_ways :
  exists out out',
    _run_dask_numpy ramp3_tiled (of_Q 225) (of_Q 25) = Ok out /\
    _run_dask_numpy ramp3_rows (of_Q 225) (of_Q 25) = Ok out' /\
    nrows (whole out) = nrows (whole ramp3_tiled) /\
    ncols (whole out) = ncols (whole ramp3_tiled) /\
    chunks0 out = chunks0 ramp3_tiled /\ chunks1 out = chunks1 ramp3_tiled /\
    forall i j,
      (i < nrows (whole ramp3_tiled))%nat ->
      (j < ncols (whole ramp3_tiled))%nat ->
      item (whole out) i j = item (whole out') i j.
Proof.
  apply (chunking_is_irrelevant ramp3_tiled ramp3_rows (of_Q 225) (of_Q 25));
    [reflexivity | split; reflexivity | split; reflexivity
    | simpl; lia | simpl; lia].
Defined.

Lemma nan_south3_device_centre_is_nan :
  exists out,
    _run_cupy 16 (fun _ _ => RFin 0) nan_south3 (of_Q 225) (of_Q 25) = Ok out /\
    item out 1 1 = RNaN.
Proof.
  apply (device_nan_in_stencil_propagates 16 (fun _ _ => RFin 0)
           nan_south3 (of_Q 225) (of_Q 25) 1 1);
    [lia | unfold interior; simpl; lia | right; left; reflexivity].
Defined.

Lemma ramp3_tiled_equals_whole_everywhere :
  exists tiled single,
    _run_dask_numpy ramp3_tiled (of_Q 225) (of_Q 25) = Ok tiled /\
    _run_numpy (whole ramp3_tiled) (of_Q 225) (of_Q 25) = Ok single /\
    (forall i j,
       (i < nrows (whole ramp3_tiled))%nat ->
       (j < ncols (whole ramp3_tiled))%nat ->
       item (whole tiled) i j = item single i j) /\
    (forall i j,
       (i < nrows (whole ramp3_tiled))%nat ->
       (j < ncols (whole ramp3_tiled))%nat ->
       on_border (nrows (whole ramp3_tiled)) (ncols (whole ramp3_tiled)) i j
       = true ->
       item (whole tiled) i j = RNaN).
Proof.
  apply (tiled_equals_single_buffer_everywhere ramp3_tiled
           (of_Q 225) (of_Q 25));
    [split; reflexivity | simpl; lia | simpl; lia].
Defined.

Lemma row3_fails_direct_and_is_nan_tiled :
  (exists msg,
     _run_numpy (whole row3_tiled) (of_Q 225) (of_Q 25)
     = Raise (ValueError msg)) /\
  (exists tiled,
     _run_dask_numpy row3_tiled (of_Q 225) (of_Q 25) = Ok tiled /\
     nrows (whole tiled) = nrows (whole row3_tiled) /\
     ncols (whole tiled) = ncols (whole row3_tiled) /\
     forall i j,
       (i < nrows (whole row3_tiled))%nat ->
       (j < ncols (whole row3_tiled))%nat ->
       item (whole tiled) i j = RNaN).
Proof.
  apply (thin_grid_fails_direct_and_is_nan_tiled row3_tiled
           (of_Q 225) (of_Q 25));
    [split; reflexivity | simpl; lia | simpl; lia | left; reflexivity].
Defined.

Lemma sample_results_are_labelled :
  (exists out,
     snd (hillshade without_device (labelled (np_ndarray ramp3))
            (of_Q 225) (of_Q 25) (Some "Illumination"%string)) = Ok out /\
     (name out = Some "Illumination"%string /\
      coords out = coords (labelled (np_ndarray ramp3)) /\
      dims out = dims (labelled (np_ndarray ramp3)) /\
      attrs out = attrs (labelled (np_ndarray ramp3)) /\
      same_kind (data (labelled (np_ndarray ramp3))) (data out))) /\
  (exists out,
     snd (hillshade without_device (labelled (da_Array ramp3_device_tiled))
            (of_Q 225) (of_Q 25) (Some "Illumination"%string)) = Ok out /\
     (name out = Some "Illumination"%string /\
      coords out = coords (labelled (da_Array ramp3_device_tiled)) /\
      dims out = dims (labelled (da_Array ramp3_device_tiled)) /\
      attrs out = attrs (labelled (da_Array ramp3_device_tiled)) /\
      same_kind (data (labelled (da_Array ramp3_device_tiled))) (data out))).
Proof.
  split.
  - eexists. split; [reflexivity|].
    apply (dispatcher_keeps_labels_and_kind without_device
             (labelled (np_ndarray ramp3)) _ (of_Q 225) (of_Q 25)
             (Some "Illumination"%string)).
    reflexivity.
  - eexists. split; [reflexivity|].
    apply (dispatcher_keeps_labels_and_kind without_device
             (labelled (da_Array ramp3_device_tiled)) _ (of_Q 225) (of_Q 25)
             (Some "Illumination"%string)).
    reflexivity.
Defined.

Lemma ramp3_on_device_returns_with_device_only :
  ((exists out,
      snd (hillshade with_device (labelled (cupy_ndarray ramp3))
             (of_Q 225) (of_Q 25) None) = Ok out)
   <-> has_cuda with_device = true /\ cupy_imported with_device = true) /\
  ((exists out,
      snd (hillshade without_device (labelled (cupy_ndarray ramp3))
             (of_Q 225) (of_Q 25) None) = Ok out)
   <-> has_cuda without_device = true /\ cupy_imported without_device = true).
Proof.
  split.
  - apply (hillshade_returns_exactly_when with_device
             (labelled (cupy_ndarray ramp3)) (of_Q 225) (of_Q 25) None).
    simpl. lia.
  - apply (hillshade_returns_exactly_when without_device
             (labelled (cupy_ndarray ramp3)) (of_Q 225) (of_Q 25) None).
    simpl. lia.
Defined.

Lemma host_tiled_input_rejected_without_cupy :
  hillshade device_without_cupy (labelled (da_Array ramp3_tiled))
            (of_Q 225) (of_Q 25) None
  = ([], Raise (TypeError
       "isinstance() arg 2 must be a type, a tuple of types, or a union")).
Proof.
  apply (device_without_cupy_rejects_all_but_numpy device_without_cupy
           (labelled (da_Array ramp3_tiled)) (of_Q 225) (of_Q 25) None);
    [reflexivity | reflexivity | intros a; discriminate].
Defined.

Lemma ramp3_same_whether_chunked_or_not :
  exists out out' tiled single,
    snd (hillshade without_device (labelled (da_Array ramp3_tiled))
           (of_Q 225) (of_Q 25) None) = Ok out /\
    snd (hillshade without_device (labelled (np_ndarray ramp3))
           (of_Q 225) (of_Q 25) None) = Ok out' /\
    data out = da_Array tiled /\ data out' = np_ndarray single /\
    forall i j,
      (i < nrows (whole ramp3_tiled))%nat ->
      (j < ncols (whole ramp3_tiled))%nat ->
      item (whole tiled) i j = item single i j.
Proof.
  apply (hillshade_same_whether_chunked_or_not without_device
           (labelled (da_Array ramp3_tiled)) (labelled (np_ndarray ramp3))
           ramp3_tiled (of_Q 225) (of_Q 25) None);
    [reflexivity | reflexivity | reflexivity | left; reflexivity
    | split; reflexivity | simpl; lia | simpl; lia].
Defined.

End MoreWitnesses.
